(** * The greeting API of notebooks/fast-api-greeting-server.ipynb

    The notebook builds five applications, one per code cell.  Each cell
    creates an application object, optionally installs the cross-origin
    middleware, declares its endpoints with decorators and type annotations,
    and starts the server.  The endpoint functions are ordinary Python
    functions; what the decorators, the annotations and [add_middleware] mean
    is fixed by the libraries the cells import: FastAPI for routing and
    parameter binding, pydantic for the model classes (a field annotated
    [str] accepts a string and nothing else), Starlette for the cross-origin
    middleware.

    The development has three layers:
    - the data the code handles: decoded JSON values, requests, responses;
    - the behaviour the framework gives to the declarations the cells use
      (routing on path and method, binding of a query parameter with a
      default, binding and validation of a JSON body against a model class,
      validation of the returned value against a response model, the
      cross-origin middleware);
    - the five cells themselves: their models, endpoint functions, routes and
      middleware settings.

    Header names are shown as they travel, in lower case.  The entity headers
    derived from the encoded body (content-length, content-type) are not
    listed in responses.  The routes that the framework generates for its own
    documentation pages and its redirection of a path that differs from a
    route by a trailing slash are not part of the model: the statements that
    fix a path are about [/] and [/greet]. *)

From Stdlib Require Import ZArith String List Bool Lia.
From stdpp Require Import base option strings gmap.
Import ListNotations.

Set Warnings "-register-all".

Open Scope string_scope.
Open Scope Z_scope.

(** ** Decoded JSON *)

(** A decoded JSON document, as [json.loads] delivers it: an object becomes a
    dictionary, so a repeated key keeps one value only. *)
Inductive json : Type :=
  | JNull
  | JBool (b : bool)
  | JNum (n : Z)
  | JStr (s : string)
  | JArr (items : list json)
  | JObj (fields : gmap string json).

(** ** Endpoint code may touch process state *)

(** A Python function can read and assign module-level variables.  The store
    stands for them; an endpoint function is a computation over it. *)
Definition Store : Type := gmap string json.

Definition M (A : Type) : Type := Store -> A * Store.

Definition ret {A} (a : A) : M A := fun st => (a, st).

Definition bind {A B} (c : M A) (k : A -> M B) : M B :=
  fun st => let '(a, st') := c st in k a st'.

Declare Scope handler_scope.
Delimit Scope handler_scope with handler.
Notation "x <- c ;; k" := (bind c (fun x => k))
  (at level 100, c at next level, right associativity) : handler_scope.

(** ** Requests and responses *)

(** The body of a request as the binding layer sees it: nothing was sent, the
    bytes could not be decoded as JSON, or they decoded to a value. *)
Inductive RawBody : Type :=
  | NoBody
  | Undecodable
  | Decoded (v : json).

Record Request : Type := mkRequest {
  method : string;
  path : string;
  query_params : list (string * string);   (* decoded, in URL order *)
  request_headers : list (string * string);
  request_body : RawBody
}.

Inductive Body : Type :=
  | JSONBody (content : json)
  | PlainText (text : string).

Record Response : Type := mkResponse {
  status_code : Z;
  response_headers : list (string * string);
  body : Body
}.

(** [Headers.get]: the first entry with that name. *)
Fixpoint header_get (key : string) (hs : list (string * string)) : option string :=
  match hs with
  | [] => None
  | (k, v) :: rest => if String.eqb k key then Some v else header_get key rest
  end.

(** [QueryParams.get]: the pairs are loaded into a dictionary, so the last
    occurrence of a key is the one that is read. *)
Definition query_get (key : string) (q : list (string * string)) : option string :=
  fold_left (fun acc kv => if String.eqb (fst kv) key then Some (snd kv) else acc) q None.

(** [MutableHeaders.__setitem__]: overwrite the first entry with that name
    and drop later ones, or append. *)
Fixpoint header_set (key value : string) (hs : list (string * string))
  : list (string * string) :=
  match hs with
  | [] => [(key, value)]
  | (k, v) :: rest =>
      if String.eqb k key
      then (key, value) :: List.filter (fun kv => negb (String.eqb (fst kv) key)) rest
      else (k, v) :: header_set key value rest
  end.

(** [MutableHeaders.update]: set each entry of [new] in turn. *)
Definition header_update (new hs : list (string * string)) : list (string * string) :=
  fold_left (fun acc kv => header_set (fst kv) (snd kv) acc) new hs.

(** [MutableHeaders.add_vary_header]. *)
Definition add_vary_header (vary : string) (hs : list (string * string))
  : list (string * string) :=
  match header_get "vary" hs with
  | Some existing => header_set "vary" (existing ++ ", " ++ vary) hs
  | None => header_set "vary" vary hs
  end.

(** [", ".join(items)]. *)
Fixpoint join (sep : string) (items : list string) : string :=
  match items with
  | [] => ""
  | [x] => x
  | x :: rest => x ++ sep ++ join sep rest
  end.

Definition mem (x : string) (l : list string) : bool :=
  existsb (String.eqb x) l.

(** ** What the framework does with a cell's declarations *)

(** One entry of a validation report.  The framework adds the offending
    input to each entry; that field is left out here. *)
Record ErrorDetail : Type := mkError {
  error_type : string;
  loc : list string;
  msg : string
}.

Definition error_json (e : ErrorDetail) : json :=
  JObj (<["type" := JStr (error_type e)]>
        (<["loc" := JArr (map JStr (loc e))]>
         {["msg" := JStr (msg e)]})).

(** A model class ([BaseModel] subclass) used for a request body: validation
    of a decoded value yields an instance or a report. *)
Definition Model (T : Type) : Type := json -> list ErrorDetail + T.

(** A model class used as [response_model]: the returned value is validated
    and re-encoded with the declared fields only. *)
Definition ResponseModel : Type := json -> option json.

(** The parameters an endpoint function declares.
    - [def f()];
    - [def f(name: str = default)] or [name: str = Query(default=...)];
    - [def f(request: T)] with [T] a model class. *)
Inductive Endpoint : Type :=
  | NoParameters (f : M json)
  | QueryParameter (alias default : string) (f : string -> M json)
  | BodyParameter {T : Type} (model : Model T) (f : T -> M json).

Record Route : Type := mkRoute {
  route_path : string;
  methods : list string;
  endpoint : Endpoint;
  response_model : option ResponseModel
}.

(** What an inner layer hands to the layer around it: a response that was
    sent, or an exception that escaped. *)
Inductive Outcome : Type :=
  | Sent (r : Response)
  | Raised (error : string).

(** The binding layer either answers by itself or calls the endpoint
    function on the arguments it has bound. *)
Inductive Bound : Type :=
  | Rejected (r : Response)
  | Call (c : M json).

Definition unprocessable (errs : list ErrorDetail) : Response :=
  mkResponse 422 [] (JSONBody (JObj {["detail" := JArr (map error_json errs)]})).

Definition in_body (e : ErrorDetail) : ErrorDetail :=
  mkError (error_type e) ("body" :: loc e) (msg e).

(** Reading a body parameter: an absent body (or a JSON null) is a missing
    required value; bytes that do not decode are reported as such (the
    position of the decoding error is left out of the report); a decoded
    value is validated against the model. *)
Definition read_body {T} (model : Model T) (b : RawBody) : list ErrorDetail + T :=
  match b with
  | NoBody | Decoded JNull => inl [mkError "missing" ["body"] "Field required"]
  | Undecodable => inl [mkError "json_invalid" ["body"] "JSON decode error"]
  | Decoded v =>
      match model v with
      | inl errs => inl (map in_body errs)
      | inr x => inr x
      end
  end.

Definition solve_dependencies (e : Endpoint) (req : Request) : Bound :=
  match e with
  | NoParameters f => Call f
  | QueryParameter alias default f =>
      match query_get alias (query_params req) with
      | Some value => Call (f value)
      | None => Call (f default)
      end
  | BodyParameter model f =>
      match read_body model (request_body req) with
      | inl errs => Rejected (unprocessable errs)
      | inr x => Call (f x)
      end
  end.

(** Encoding of the value an endpoint function returned. *)
Definition serialize_response (rm : option ResponseModel) (v : json) : Outcome :=
  match rm with
  | None => Sent (mkResponse 200 [] (JSONBody v))
  | Some validate =>
      match validate v with
      | Some out => Sent (mkResponse 200 [] (JSONBody out))
      | None => Raised "ResponseValidationError"
      end
  end.

Definition handle (r : Route) (req : Request) : M Outcome :=
  match solve_dependencies (endpoint r) req with
  | Rejected resp => ret (Sent resp)
  | Call c => (v <- c ;; ret (serialize_response (response_model r) v))%handler
  end.

Inductive Match : Type := NONE | PARTIAL | FULL.

(** A route matches fully on path and method, partially on the path alone. *)
Definition matches (r : Route) (req : Request) : Match :=
  if String.eqb (path req) (route_path r)
  then if mem (method req) (methods r) then FULL else PARTIAL
  else NONE.

Definition not_found : Response :=
  mkResponse 404 [] (JSONBody (JObj {["detail" := JStr "Not Found"]})).

Definition method_not_allowed (r : Route) : Response :=
  mkResponse 405 [("allow", join ", " (methods r))]
    (JSONBody (JObj {["detail" := JStr "Method Not Allowed"]})).

(** The router: the first full match handles the request; failing that, the
    first partial match answers 405; failing that, 404. *)
Fixpoint router (routes : list Route) (partial : option Route) (req : Request)
  : M Outcome :=
  match routes with
  | [] =>
      match partial with
      | Some r => ret (Sent (method_not_allowed r))
      | None => ret (Sent not_found)
      end
  | r :: rest =>
      match matches r req with
      | FULL => handle r req
      | PARTIAL =>
          router rest (match partial with None => Some r | Some p => Some p end) req
      | NONE => router rest partial req
      end
  end.

(** ** The cross-origin middleware *)

(** The settings a cell passes to [add_middleware(CORSMiddleware, ...)].
    Every cell that installs the middleware passes [allow_headers=["*"]]; the
    model is written for that setting, under which the headers a preflight
    asks for are echoed back and never cause a failure.  The settings the
    cells leave at their defaults (no origin pattern, no exposed headers, a
    max age of 600) are fixed. *)
Record CORSMiddleware : Type := mkCORS {
  allow_origins : list string;
  allow_credentials : bool;
  allow_methods : list string
}.

Definition ALL_METHODS : list string :=
  ["DELETE"; "GET"; "HEAD"; "OPTIONS"; "PATCH"; "POST"; "PUT"].

(** A wildcard among the methods stands for [ALL_METHODS]. *)
Definition cors_methods (c : CORSMiddleware) : list string :=
  if mem "*" (allow_methods c) then ALL_METHODS else allow_methods c.

Definition allow_all_origins (c : CORSMiddleware) : bool :=
  mem "*" (allow_origins c).

Definition preflight_explicit_allow_origin (c : CORSMiddleware) : bool :=
  negb (allow_all_origins c) || allow_credentials c.

Definition simple_headers (c : CORSMiddleware) : list (string * string) :=
  ((if allow_all_origins c then [("access-control-allow-origin", "*")] else [])
   ++ (if allow_credentials c then [("access-control-allow-credentials", "true")] else []))%list.

Definition preflight_headers (c : CORSMiddleware) : list (string * string) :=
  ((if preflight_explicit_allow_origin c
    then [("vary", "Origin")]
    else [("access-control-allow-origin", "*")])
   ++ [("access-control-allow-methods", join ", " (cors_methods c));
       ("access-control-max-age", "600")]
   ++ (if allow_credentials c then [("access-control-allow-credentials", "true")] else []))%list.

Definition is_allowed_origin (c : CORSMiddleware) (origin : string) : bool :=
  allow_all_origins c || mem origin (allow_origins c).

(** The answer to a preflight.  Failures are collected; any failure turns the
    answer into a 400, which still carries the headers built so far. *)
Definition preflight_response (c : CORSMiddleware) (hs : list (string * string))
    (requested_origin requested_method : string) : Response :=
  let requested_headers := header_get "access-control-request-headers" hs in
  let allowed := is_allowed_origin c requested_origin in
  let headers1 :=
    if allowed && preflight_explicit_allow_origin c
    then header_set "access-control-allow-origin" requested_origin (preflight_headers c)
    else preflight_headers c in
  let failures :=
    ((if allowed then [] else ["origin"])
     ++ (if mem requested_method (cors_methods c) then [] else ["method"]))%list in
  let headers2 :=
    match requested_headers with
    | Some rh => header_set "access-control-allow-headers" rh headers1
    | None => headers1
    end in
  match failures with
  | [] => mkResponse 200 headers2 (PlainText "OK")
  | _ => mkResponse 400 headers2 (PlainText ("Disallowed CORS " ++ join ", " failures))
  end.

Definition allow_explicit_origin (origin : string) (hs : list (string * string))
  : list (string * string) :=
  add_vary_header "Origin" (header_set "access-control-allow-origin" origin hs).

(** The wrapper around [send] for an ordinary request that carries an origin:
    the inner response goes out with cross-origin headers added. *)
Definition cors_send (c : CORSMiddleware) (origin : string) (has_cookie : bool)
    (r : Response) : Response :=
  let hs := header_update (simple_headers c) (response_headers r) in
  let hs' :=
    if allow_all_origins c && has_cookie then allow_explicit_origin origin hs
    else if negb (allow_all_origins c) && is_allowed_origin c origin
         then allow_explicit_origin origin hs
         else hs in
  mkResponse (status_code r) hs' (body r).

Definition simple_response (c : CORSMiddleware) (inner : Request -> M Outcome)
    (req : Request) (origin : string) : M Outcome :=
  (o <- inner req ;;
   ret (match o with
        | Sent r =>
            Sent (cors_send c origin
                    (bool_decide (is_Some (header_get "cookie" (request_headers req)))) r)
        | Raised e => Raised e
        end))%handler.

(** [CORSMiddleware.__call__]: without an origin the request goes straight
    through; an [OPTIONS] request that names a requested method is answered as
    a preflight by the middleware itself; anything else is passed on and its
    response decorated. *)
Definition cors_call (c : CORSMiddleware) (inner : Request -> M Outcome)
    (req : Request) : M Outcome :=
  match header_get "origin" (request_headers req) with
  | None => inner req
  | Some origin =>
      match header_get "access-control-request-method" (request_headers req) with
      | Some requested_method =>
          if String.eqb (method req) "OPTIONS"
          then ret (Sent (preflight_response c (request_headers req) origin requested_method))
          else simple_response c inner req origin
      | None => simple_response c inner req origin
      end
  end.

(** ** An application *)

Record FastAPI : Type := mkApp {
  user_middleware : option CORSMiddleware;
  routes : list Route
}.

Definition internal_server_error : Response :=
  mkResponse 500 [] (PlainText "Internal Server Error").

(** One request through the stack: the error layer outermost, then the
    installed middleware, then the router. *)
Definition app_call (a : FastAPI) (req : Request) : M Response :=
  (o <- match user_middleware a with
        | Some c => cors_call c (router (routes a) None) req
        | None => router (routes a) None req
        end ;;
   ret (match o with
        | Sent r => r
        | Raised _ => internal_server_error
        end))%handler.

(** The server loop: requests are served one after the other, each starting
    from the store the previous one left. *)
Fixpoint serve (a : FastAPI) (reqs : list Request) : M (list Response) :=
  match reqs with
  | [] => ret []
  | req :: rest =>
      (r <- app_call a req ;;
       rs <- serve a rest ;;
       ret (r :: rs))%handler
  end.

(** ** The models of the notebook *)

(** [class NameRequest(BaseModel): name: str] *)
Record NameRequest : Type := mkNameRequest { name : string }.

(** Validation of a decoded value against [NameRequest]: it must be an object
    whose [name] entry is a string; other entries are ignored. *)
Definition NameRequest_validate : Model NameRequest := fun v =>
  match v with
  | JObj fields =>
      match fields !! "name" with
      | Some (JStr s) => inr (mkNameRequest s)
      | Some _ => inl [mkError "string_type" ["name"] "Input should be a valid string"]
      | None => inl [mkError "missing" ["name"] "Field required"]
      end
  | _ =>
      inl [mkError "model_attributes_type" []
             "Input should be a valid dictionary or object to extract fields from"]
  end.

(** [class GreetingResponse(BaseModel): message: str] *)
Record GreetingResponse : Type := mkGreetingResponse { message : string }.

Definition GreetingResponse_validate (v : json) : option GreetingResponse :=
  match v with
  | JObj fields =>
      match fields !! "message" with
      | Some (JStr s) => Some (mkGreetingResponse s)
      | _ => None
      end
  | _ => None
  end.

Definition GreetingResponse_dump (g : GreetingResponse) : json :=
  JObj {["message" := JStr (message g)]}.

Definition GreetingResponse_model : ResponseModel := fun v =>
  GreetingResponse_dump <$> GreetingResponse_validate v.

(** ** The five cells *)

(** Greeting 1: query parameter, no middleware. *)
Module Greeting1.

Definition root : M json :=
  ret (JObj {["message" := JStr "Hello World"]}).

Definition greet (name : string) : M json :=
  ret (JObj {["message" := JStr ("Hello " ++ name)]}).

Definition app : FastAPI :=
  mkApp None
    [ mkRoute "/" ["GET"] (NoParameters root) None;
      mkRoute "/greet" ["GET"] (QueryParameter "name" "World" greet) None ].

End Greeting1.

(** The documented variant: the same endpoint with a response model. *)
Module Documented.

Definition greet (name : string) : M json :=
  ret (JObj {["message" := JStr ("Hello " ++ name)]}).

Definition app : FastAPI :=
  mkApp None
    [ mkRoute "/greet" ["GET"] (QueryParameter "name" "World" greet)
        (Some GreetingResponse_model) ].

End Documented.

(** Greeting 1 behind the middleware, every origin allowed. *)
Module CorsEnabled.

Definition greet (name : string) : M json :=
  ret (JObj {["message" := JStr ("Hello " ++ name)]}).

Definition app : FastAPI :=
  mkApp (Some (mkCORS ["*"] true ["*"]))
    [ mkRoute "/greet" ["GET"] (QueryParameter "name" "World" greet) None ].

End CorsEnabled.

(** Greeting 2: JSON payload. *)
Module Greeting2.

Definition greet_name (request : NameRequest) : M json :=
  ret (JObj {["message" := JStr ("Hello " ++ name request)]}).

Definition app : FastAPI :=
  mkApp (Some (mkCORS ["*"] true ["*"]))
    [ mkRoute "/greet" ["POST"] (BodyParameter NameRequest_validate greet_name) None ].

End Greeting2.

(** Putting it all together: both endpoints on one path, response model,
    origins restricted to a list. *)
Module Combined.

Definition origins : list string :=
  [ "http://localhost:8000";
    "http://127.0.0.1:8000";
    "https://chrwittm.github.io" ].

Definition greet_get (name : string) : M json :=
  ret (JObj {["message" := JStr ("Hello " ++ name)]}).

Definition greet_post (request : NameRequest) : M json :=
  ret (JObj {["message" := JStr ("Hello " ++ name request)]}).

(** The application the cell assembles, with the two endpoint functions
    left open: the middleware settings and the two route declarations. *)
Definition app_with (get : string -> M json) (post : NameRequest -> M json)
  : FastAPI :=
  mkApp (Some (mkCORS origins true ["*"]))
    [ mkRoute "/greet" ["GET"] (QueryParameter "name" "World" get)
        (Some GreetingResponse_model);
      mkRoute "/greet" ["POST"] (BodyParameter NameRequest_validate post)
        (Some GreetingResponse_model) ].

Definition app : FastAPI := app_with greet_get greet_post.

End Combined.

(** * Properties *)

(** ** Requests used in the statements *)

Definition GET (p : string) (q hs : list (string * string)) (b : RawBody) : Request :=
  mkRequest "GET" p q hs b.

Definition POST (p : string) (q hs : list (string * string)) (b : RawBody) : Request :=
  mkRequest "POST" p q hs b.

Definition OPTIONS (p : string) (q hs : list (string * string)) (b : RawBody) : Request :=
  mkRequest "OPTIONS" p q hs b.

(** The body [{"message": "Hello " + n}]. *)
Definition hello (n : string) : Body :=
  JSONBody (JObj {["message" := JStr ("Hello " ++ n)]}).

(** ** Vocabulary of the statements *)

(** A request is answered by the middleware itself exactly when it is an
    [OPTIONS] request carrying both an origin and a requested method. *)
Definition is_preflight (req : Request) : bool :=
  String.eqb (method req) "OPTIONS"
  && bool_decide (is_Some (header_get "origin" (request_headers req)))
  && bool_decide (is_Some (header_get "access-control-request-method" (request_headers req))).

(** What the middleware does to a response coming from inside, for a request
    that is not a preflight. *)
Definition through_cors (c : CORSMiddleware) (req : Request) (r : Response) : Response :=
  match header_get "origin" (request_headers req) with
  | None => r
  | Some origin =>
      cors_send c origin
        (bool_decide (is_Some (header_get "cookie" (request_headers req)))) r
  end.

(** The response to one request served from the store [st]. *)
Definition respond (a : FastAPI) (req : Request) (st : Store) : Response :=
  fst (app_call a req st).

(** The three ways in which a body can be malformed. *)
Definition not_valid_json (b : RawBody) : Prop :=
  b = NoBody \/ b = Undecodable.

Definition lacks_name (b : RawBody) : Prop :=
  exists v, b = Decoded v /\ forall fields, v = JObj fields -> fields !! "name" = None.

Definition name_not_string (b : RawBody) : Prop :=
  exists fields v,
    b = Decoded (JObj fields) /\ fields !! "name" = Some v /\ forall s, v <> JStr s.

Definition malformed (b : RawBody) : Prop :=
  not_valid_json b \/ lacks_name b \/ name_not_string b.

(** The body is an object whose [name] entry is the string [n]. *)
Definition string_name (b : RawBody) (n : string) : Prop :=
  exists fields, b = Decoded (JObj fields) /\ fields !! "name" = Some (JStr n).

(** A preflight from a listed origin that asks for a method outside the seven
    the wildcard stands for. *)
Definition preflight_propfind : Request :=
  OPTIONS "/greet" []
    [("origin", "http://localhost:8000");
     ("access-control-request-method", "PROPFIND")]
    NoBody.

(** An application with its middleware taken out. *)
Definition without_middleware (a : FastAPI) : FastAPI := mkApp None (routes a).

(** A [GET] from an origin outside the list. *)
Definition get_unlisted_origin : Request :=
  GET "/greet" [] [("origin", "https://example.org")] NoBody.

(** A [POST] whose body is the empty object. *)
Definition post_empty_object : Request :=
  POST "/greet" [] [] (Decoded (JObj ∅)).

(** A computation that returns the same value from every store and leaves
    the store as it found it. *)
Definition stateless {A} (c : M A) : Prop :=
  exists a, forall st, c st = (a, st).

Definition stateless_endpoint (e : Endpoint) : Prop :=
  match e with
  | NoParameters f => stateless f
  | QueryParameter _ _ f => forall x, stateless (f x)
  | BodyParameter _ f => forall x, stateless (f x)
  end.

Definition stateless_routes (a : FastAPI) : Prop :=
  Forall (fun r => stateless_endpoint (endpoint r)) (routes a).

(** The applications of the five cells. *)
Definition cells : list FastAPI :=
  [Greeting1.app; Documented.app; CorsEnabled.app; Greeting2.app; Combined.app].

(** ** Lookup and header lemmas *)

Lemma GreetingResponse_model_message (s : string) :
  GreetingResponse_model (JObj {["message" := JStr s]})
  = Some (JObj {["message" := JStr s]}).
Proof.
  unfold GreetingResponse_model, GreetingResponse_validate.
  rewrite lookup_singleton_eq. reflexivity.
Qed.

Lemma query_get_single (k v : string) : query_get k [(k, v)] = Some v.
Proof. unfold query_get. cbn. rewrite String.eqb_refl. reflexivity. Qed.

Lemma header_get_set_eq (k v : string) (hs : list (string * string)) :
  header_get k (header_set k v hs) = Some v.
Proof.
  induction hs as [|[k' v'] hs IH]; cbn.
  - rewrite String.eqb_refl. reflexivity.
  - destruct (String.eqb k' k) eqn:E; cbn.
    + rewrite String.eqb_refl. reflexivity.
    + rewrite E. exact IH.
Qed.

Lemma header_get_filter_ne (k k' : string) (hs : list (string * string)) :
  k <> k' ->
  header_get k' (List.filter (fun kv => negb (String.eqb (fst kv) k)) hs) = header_get k' hs.
Proof.
  intros Hne. induction hs as [|[k0 v0] hs IH]; [reflexivity|].
  cbn. destruct (String.eqb k0 k) eqn:E; cbn.
  - apply String.eqb_eq in E. subst k0.
    destruct (String.eqb k k') eqn:E'; [apply String.eqb_eq in E'; contradiction|].
    exact IH.
  - destruct (String.eqb k0 k'); [reflexivity | exact IH].
Qed.

Lemma header_get_set_ne (k k' v : string) (hs : list (string * string)) :
  k <> k' -> header_get k' (header_set k v hs) = header_get k' hs.
Proof.
  intros Hne. induction hs as [|[k0 v0] hs IH]; cbn.
  - destruct (String.eqb k k') eqn:E; [apply String.eqb_eq in E; contradiction|reflexivity].
  - destruct (String.eqb k0 k) eqn:E; cbn.
    + apply String.eqb_eq in E. subst k0.
      destruct (String.eqb k k') eqn:E'; [apply String.eqb_eq in E'; contradiction|].
      apply header_get_filter_ne; assumption.
    + destruct (String.eqb k0 k'); [reflexivity | exact IH].
Qed.

Lemma mem_In (x : string) (l : list string) : mem x l = true <-> In x l.
Proof.
  unfold mem. rewrite existsb_exists. split.
  - intros (y & Hy & E). apply String.eqb_eq in E. subst. exact Hy.
  - intros H. exists x. split; [exact H | apply String.eqb_refl].
Qed.

Lemma mem_not_In (x : string) (l : list string) : mem x l = false <-> ~ In x l.
Proof.
  rewrite <- mem_In. destruct (mem x l); split; congruence.
Qed.

(** ** The middleware around an ordinary request *)

Lemma through_cors_status c req r : status_code (through_cors c req r) = status_code r.
Proof. unfold through_cors. destruct (header_get _ _); reflexivity. Qed.

Lemma through_cors_body c req r : body (through_cors c req r) = body r.
Proof. unfold through_cors. destruct (header_get _ _); reflexivity. Qed.

Lemma through_cors_eta c req r :
  through_cors c req r
  = mkResponse (status_code r) (response_headers (through_cors c req r)) (body r).
Proof.
  rewrite <- (through_cors_status c req r), <- (through_cors_body c req r).
  destruct (through_cors c req r); reflexivity.
Qed.

Lemma cors_call_ordinary c inner req st :
  is_preflight req = false ->
  cors_call c inner req st
  = (let '(o, st') := inner req st in
     (match o with Sent r => Sent (through_cors c req r) | Raised e => Raised e end, st')).
Proof.
  unfold is_preflight, cors_call, through_cors, simple_response, bind, ret.
  destruct (header_get "origin" _) as [origin|].
  - destruct (header_get "access-control-request-method" _) as [m|].
    + destruct (String.eqb (method req) "OPTIONS"); [discriminate|].
      intros _. destruct (inner req st) as [[r|e] st']; reflexivity.
    + intros _. destruct (inner req st) as [[r|e] st']; reflexivity.
  - intros _. destruct (inner req st) as [[r|e] st']; reflexivity.
Qed.

Lemma app_call_ordinary a c req st :
  user_middleware a = Some c ->
  is_preflight req = false ->
  app_call a req st
  = (let '(o, st') := router (routes a) None req st in
     (match o with Sent r => through_cors c req r | Raised _ => internal_server_error end,
      st')).
Proof.
  intros Hc Hp. unfold app_call, bind, ret. rewrite Hc.
  rewrite (cors_call_ordinary _ _ _ _ Hp).
  destruct (router (routes a) None req st) as [[r|e] st']; reflexivity.
Qed.

(** ** The two endpoints of the final cell *)

Section CombinedRoutes.

Variable get : string -> M json.
Variable post : NameRequest -> M json.

(** The binding layer hands the query endpoint the last [name] entry of
    the query string, or the declared default. *)
Lemma router_get_greet q hs b st :
  router (routes (Combined.app_with get post)) None (GET "/greet" q hs b) st
  = (let '(v, st') := get (default "World" (query_get "name" q)) st in
     (serialize_response (Some GreetingResponse_model) v, st')).
Proof.
  cbn -[query_get]. unfold handle, solve_dependencies, bind, ret. cbn -[query_get].
  destruct (query_get "name" q); reflexivity.
Qed.

(** The binding layer validates the body before it calls the body
    endpoint. *)
Lemma router_post_greet q hs b st :
  router (routes (Combined.app_with get post)) None (POST "/greet" q hs b) st
  = match read_body NameRequest_validate b with
    | inl errs => (Sent (unprocessable errs), st)
    | inr x =>
        let '(v, st') := post x st in
        (serialize_response (Some GreetingResponse_model) v, st')
    end.
Proof.
  cbn -[read_body]. unfold handle, solve_dependencies, bind, ret. cbn -[read_body].
  destruct (read_body NameRequest_validate b); reflexivity.
Qed.

(** No route of the cell lists [OPTIONS]. *)
Lemma router_options_greet q hs b st :
  router (routes (Combined.app_with get post)) None (OPTIONS "/greet" q hs b) st
  = (Sent (mkResponse 405 [("allow", "GET")]
             (JSONBody (JObj {["detail" := JStr "Method Not Allowed"]}))), st).
Proof. reflexivity. Qed.

End CombinedRoutes.

Lemma serialize_hello (n : string) :
  serialize_response (Some GreetingResponse_model)
    (JObj {["message" := JStr ("Hello " ++ n)]})
  = Sent (mkResponse 200 [] (hello n)).
Proof.
  unfold serialize_response. rewrite GreetingResponse_model_message. reflexivity.
Qed.

Lemma GET_not_preflight p q hs b : is_preflight (GET p q hs b) = false.
Proof. reflexivity. Qed.

Lemma POST_not_preflight p q hs b : is_preflight (POST p q hs b) = false.
Proof. reflexivity. Qed.

(** [GET /greet] on the final cell: the greeting of the bound name. *)
Lemma combined_get_greet q hs b st :
  app_call Combined.app (GET "/greet" q hs b) st
  = (through_cors (mkCORS Combined.origins true ["*"]) (GET "/greet" q hs b)
       (mkResponse 200 [] (hello (default "World" (query_get "name" q)))), st).
Proof.
  rewrite (app_call_ordinary Combined.app (mkCORS Combined.origins true ["*"])
             _ _ eq_refl (GET_not_preflight _ _ _ _)).
  unfold Combined.app. rewrite router_get_greet.
  unfold Combined.greet_get, ret. rewrite serialize_hello. reflexivity.
Qed.

(** [POST /greet] on the final cell, for a body that passes validation. *)
Lemma combined_post_greet q hs b st x :
  read_body NameRequest_validate b = inr x ->
  app_call Combined.app (POST "/greet" q hs b) st
  = (through_cors (mkCORS Combined.origins true ["*"]) (POST "/greet" q hs b)
       (mkResponse 200 [] (hello (name x))), st).
Proof.
  intros Hb.
  rewrite (app_call_ordinary Combined.app (mkCORS Combined.origins true ["*"])
             _ _ eq_refl (POST_not_preflight _ _ _ _)).
  unfold Combined.app. rewrite router_post_greet, Hb.
  unfold Combined.greet_post, ret. rewrite serialize_hello. reflexivity.
Qed.

(** [POST /greet] on the final cell, for a body that fails validation,
    whatever the endpoint functions are. *)
Lemma combined_post_rejected get post q hs b st errs :
  read_body NameRequest_validate b = inl errs ->
  app_call (Combined.app_with get post) (POST "/greet" q hs b) st
  = (through_cors (mkCORS Combined.origins true ["*"]) (POST "/greet" q hs b)
       (unprocessable errs), st).
Proof.
  intros Hb.
  rewrite (app_call_ordinary (Combined.app_with get post)
             (mkCORS Combined.origins true ["*"])
             _ _ eq_refl (POST_not_preflight _ _ _ _)).
  rewrite router_post_greet, Hb. reflexivity.
Qed.

Lemma read_body_named (fields : gmap string json) (n : string) :
  fields !! "name" = Some (JStr n) ->
  read_body NameRequest_validate (Decoded (JObj fields)) = inr (mkNameRequest n).
Proof. intros H. cbn. rewrite H. reflexivity. Qed.

(** ** The greeting *)

(** C1.  For every string [n], the empty string and strings with characters
    special to JSON included, [GET /greet] with the query parameter [name]
    set to [n] and [POST /greet] with the body [{"name": n}] both answer 200
    with the body [{"message": "Hello " + n}]: the name goes into the message
    as it is.  The statement holds for any request headers, and the store is
    left as it was. *)
Theorem greet_returns_hello_name
    (n : string) (q hs : list (string * string)) (b : RawBody) (st : Store) :
  (exists hs',
     app_call Combined.app (GET "/greet" [("name", n)] hs b) st
     = (mkResponse 200 hs' (JSONBody (JObj {["message" := JStr ("Hello " ++ n)]})), st))
  /\
  (exists hs',
     app_call Combined.app (POST "/greet" q hs (Decoded (JObj {["name" := JStr n]}))) st
     = (mkResponse 200 hs' (JSONBody (JObj {["message" := JStr ("Hello " ++ n)]})), st)).
Proof.
  split.
  - rewrite combined_get_greet, query_get_single, through_cors_eta.
    eexists. reflexivity.
  - rewrite (combined_post_greet _ _ _ _ (mkNameRequest n)).
    + rewrite through_cors_eta. eexists. reflexivity.
    + apply read_body_named, lookup_singleton_eq.
Qed.

(** C3.  [GET /greet] whose query string has no [name] entry always succeeds
    with the default.  The binding layer puts the literal [World] in before
    the endpoint function runs: whatever the query endpoint function is, it
    is run on ["World"] from the store of the request, and the response is
    built from what it returns.  With the endpoint function of the cell the
    answer is 200 with [{"message": "Hello World"}]. *)
Theorem greet_without_name_defaults_to_world
    (q hs : list (string * string)) (b : RawBody) (st : Store) :
  query_get "name" q = None ->
  (exists hs',
     app_call Combined.app (GET "/greet" q hs b) st
     = (mkResponse 200 hs' (JSONBody (JObj {["message" := JStr "Hello World"]})), st))
  /\
  (forall get post,
     app_call (Combined.app_with get post) (GET "/greet" q hs b) st
     = (let '(v, st') := get "World" st in
        (match serialize_response (Some GreetingResponse_model) v with
         | Sent r =>
             through_cors (mkCORS Combined.origins true ["*"]) (GET "/greet" q hs b) r
         | Raised _ => internal_server_error
         end, st')))
  /\
  (forall get post,
     app_call (Combined.app_with get post) (GET "/greet" q hs b) st
     = app_call (Combined.app_with get post) (GET "/greet" [("name", "World")] hs b) st).
Proof.
  intros Hq. split; [|split].
  - rewrite combined_get_greet, Hq, through_cors_eta. eexists. reflexivity.
  - intros get post.
    rewrite (app_call_ordinary (Combined.app_with get post)
               (mkCORS Combined.origins true ["*"])
               _ _ eq_refl (GET_not_preflight _ _ _ _)).
    rewrite router_get_greet, Hq. cbn [default].
    destruct (get "World" st) as [v st'].
    destruct (serialize_response _ v); reflexivity.
  - intros get post.
    rewrite !(app_call_ordinary (Combined.app_with get post)
                (mkCORS Combined.origins true ["*"])
                _ _ eq_refl (GET_not_preflight _ _ _ _)).
    rewrite !router_get_greet, Hq, query_get_single. reflexivity.
Qed.

Lemma greet_without_name_defaults_to_world_witness :
  query_get "name" [("lang", "en")] = None
  /\ (exists hs',
        app_call Combined.app (GET "/greet" [("lang", "en")] [] NoBody) ∅
        = (mkResponse 200 hs' (JSONBody (JObj {["message" := JStr "Hello World"]})), ∅)).
Proof.
  split; [reflexivity|].
  apply (greet_without_name_defaults_to_world [("lang", "en")] [] NoBody ∅).
  reflexivity.
Defined.

(** C6.  In the cell that declares it, [GET /] answers 200 with
    [{"message": "Hello World"}], whatever the query string, headers and body
    of the request; there is nothing in the request that could make it
    fail. *)
Theorem root_returns_hello_world
    (q hs : list (string * string)) (b : RawBody) (st : Store) :
  app_call Greeting1.app (GET "/" q hs b) st
  = (mkResponse 200 [] (JSONBody (JObj {["message" := JStr "Hello World"]})), st).
Proof. reflexivity. Qed.

(** C7.  The two endpoint functions compute the same greeting: for every
    string [n] the query endpoint applied to [n] and the body endpoint
    applied to the model instance with name [n] are the same computation,
    and the two requests, sent with the same headers, get the same
    response. *)
Theorem get_and_post_same_greeting
    (n : string) (q hs : list (string * string)) (b : RawBody) (st : Store) :
  Combined.greet_get n = Combined.greet_post (mkNameRequest n)
  /\ app_call Combined.app (GET "/greet" [("name", n)] hs b) st
     = app_call Combined.app (POST "/greet" q hs (Decoded (JObj {["name" := JStr n]}))) st.
Proof.
  split; [reflexivity|].
  rewrite combined_get_greet, query_get_single.
  rewrite (combined_post_greet _ _ _ _ (mkNameRequest n));
    [reflexivity | apply read_body_named, lookup_singleton_eq].
Qed.

(** C10.  A body whose [name] entry is a string is accepted whatever other
    entries the object has: [POST /greet] answers 200 with the greeting of
    that name, and the whole response is the one the body [{"name": n}]
    alone would get. *)
Theorem post_ignores_extra_fields
    (fields : gmap string json) (n : string)
    (q hs : list (string * string)) (st : Store) :
  fields !! "name" = Some (JStr n) ->
  (exists hs',
     app_call Combined.app (POST "/greet" q hs (Decoded (JObj fields))) st
     = (mkResponse 200 hs' (JSONBody (JObj {["message" := JStr ("Hello " ++ n)]})), st))
  /\ app_call Combined.app (POST "/greet" q hs (Decoded (JObj fields))) st
     = app_call Combined.app (POST "/greet" q hs (Decoded (JObj {["name" := JStr n]}))) st.
Proof.
  intros Hn.
  rewrite (combined_post_greet _ _ _ _ (mkNameRequest n) (read_body_named _ _ Hn)).
  rewrite (combined_post_greet _ _ _ _ (mkNameRequest n)
             (read_body_named _ _ (lookup_singleton_eq _ _))).
  split; [|reflexivity].
  rewrite through_cors_eta. eexists. reflexivity.
Qed.

Lemma post_ignores_extra_fields_witness :
  (<["name" := JStr "Alice"]> {["age" := JNum 30]} : gmap string json) !! "name"
  = Some (JStr "Alice")
  /\ (exists hs',
        app_call Combined.app
          (POST "/greet" [] []
             (Decoded (JObj (<["name" := JStr "Alice"]> {["age" := JNum 30]})))) ∅
        = (mkResponse 200 hs' (JSONBody (JObj {["message" := JStr "Hello Alice"]})), ∅)).
Proof.
  split; [reflexivity|].
  apply (post_ignores_extra_fields
           (<["name" := JStr "Alice"]> {["age" := JNum 30]}) "Alice" [] [] ∅).
  reflexivity.
Defined.

(** ** Validation of the request body *)

Lemma malformed_not_named b n : malformed b -> string_name b n -> False.
Proof.
  intros Hm (fields & -> & Hn).
  destruct Hm as [[H|H] | [(v & Hv & Hnone) | (fields' & v & Hv & Hsome & Hns)]];
    try discriminate.
  - injection Hv as <-. rewrite (Hnone fields eq_refl) in Hn. discriminate.
  - injection Hv as <-. rewrite Hsome in Hn. injection Hn as ->.
    exact (Hns n eq_refl).
Qed.

(** Validation sorts every body into one of the two classes. *)
Lemma read_body_cases (b : RawBody) :
  (malformed b /\ exists errs, read_body NameRequest_validate b = inl errs)
  \/ (exists n, string_name b n
              /\ read_body NameRequest_validate b = inr (mkNameRequest n)).
Proof.
  destruct b as [| |v].
  - left. split; [left; left; reflexivity | eexists; reflexivity].
  - left. split; [left; right; reflexivity | eexists; reflexivity].
  - destruct v as [|bb|z|s|items|fields];
      try (left; split;
           [right; left; eexists; split; [reflexivity | intros ? [=]]
           | eexists; reflexivity]).
    destruct (fields !! "name") as [v|] eqn:Hn.
    + destruct v as [|bb|z|s|items|fields'];
        try (left; split;
             [right; right; exists fields; eexists; repeat split;
                [exact Hn | intros ? [=]]
             | cbn; rewrite Hn; eexists; reflexivity]).
      right. exists s. split; [exists fields; split; [reflexivity | exact Hn]|].
      apply read_body_named, Hn.
    + left. split.
      * right; left. eexists. split; [reflexivity|]. intros ? [= <-]. exact Hn.
      * cbn. rewrite Hn. eexists. reflexivity.
Qed.

(** C2.  [POST /greet] is answered with a client error, before the endpoint
    function is called, exactly when the body is not valid JSON, or the
    decoded value has no [name] entry, or the [name] entry is not a string.
    In each of these cases the status is 422 and the answer does not depend
    on the endpoint functions; otherwise the body endpoint is called on the
    instance holding the name, and with the endpoint function of the cell the
    answer is the 200 greeting.  Every body falls in one of the two cases, so
    that no body makes the server fail. *)
Theorem post_greet_rejects_malformed_bodies
    (q hs : list (string * string)) (b : RawBody) (st : Store) :
  (malformed b
   <-> 400 <= status_code (respond Combined.app (POST "/greet" q hs b) st) < 500)
  /\ (malformed b ->
      status_code (respond Combined.app (POST "/greet" q hs b) st) = 422
      /\ forall get post,
           app_call (Combined.app_with get post) (POST "/greet" q hs b) st
           = (respond Combined.app (POST "/greet" q hs b) st, st))
  /\ (forall n, string_name b n ->
      (forall get post,
         app_call (Combined.app_with get post) (POST "/greet" q hs b) st
         = (let '(v, st') := post (mkNameRequest n) st in
            (match serialize_response (Some GreetingResponse_model) v with
             | Sent r =>
                 through_cors (mkCORS Combined.origins true ["*"])
                   (POST "/greet" q hs b) r
             | Raised _ => internal_server_error
             end, st')))
      /\ exists hs',
           app_call Combined.app (POST "/greet" q hs b) st
           = (mkResponse 200 hs' (JSONBody (JObj {["message" := JStr ("Hello " ++ n)]})),
              st))
  /\ (malformed b \/ exists n, string_name b n).
Proof.
  assert (Hrej : malformed b ->
    status_code (respond Combined.app (POST "/greet" q hs b) st) = 422
    /\ forall get post,
         app_call (Combined.app_with get post) (POST "/greet" q hs b) st
         = (respond Combined.app (POST "/greet" q hs b) st, st)).
  { intros Hm. destruct (read_body_cases b) as [[_ [errs He]] | (n & Hn & _)];
      [| destruct (malformed_not_named _ _ Hm Hn)].
    unfold respond, Combined.app.
    split; [| intros get post]; rewrite !(combined_post_rejected _ _ _ _ _ _ _ He);
      [apply through_cors_status | reflexivity]. }
  assert (Hok : forall n, string_name b n ->
    app_call Combined.app (POST "/greet" q hs b) st
    = (through_cors (mkCORS Combined.origins true ["*"]) (POST "/greet" q hs b)
         (mkResponse 200 [] (hello n)), st)).
  { intros n (fields & -> & Hn).
    apply (combined_post_greet _ _ _ _ (mkNameRequest n)), read_body_named, Hn. }
  split; [split | split; [exact Hrej | split]].
  - intros Hm. destruct (Hrej Hm) as [-> _]. lia.
  - intros Hst. destruct (read_body_cases b) as [[Hm _] | (n & Hn & _)]; [exact Hm|].
    unfold respond in Hst. rewrite (Hok n Hn) in Hst. cbn [fst] in Hst.
    rewrite through_cors_status in Hst. cbn in Hst. lia.
  - intros n Hn. split.
    + intros get post. destruct Hn as (fields & -> & Hn).
      rewrite (app_call_ordinary (Combined.app_with get post)
                 (mkCORS Combined.origins true ["*"])
                 _ _ eq_refl (POST_not_preflight _ _ _ _)).
      rewrite router_post_greet, (read_body_named _ _ Hn).
      destruct (post (mkNameRequest n) st) as [v st'].
      destruct (serialize_response _ v); reflexivity.
    + rewrite (Hok n Hn), through_cors_eta. eexists. reflexivity.
  - destruct (read_body_cases b) as [[Hm _] | (n & Hn & _)]; [left | right; exists n];
      assumption.
Qed.

Lemma post_greet_rejects_malformed_bodies_witness :
  malformed (Decoded (JObj {["name" := JNum 123]}))
  /\ status_code
       (respond Combined.app
          (POST "/greet" [] [] (Decoded (JObj {["name" := JNum 123]}))) ∅)
     = 422.
Proof.
  assert (Hm : malformed (Decoded (JObj {["name" := JNum 123]}))).
  { right; right. exists {["name" := JNum 123]}, (JNum 123).
    split; [reflexivity|]. split; [reflexivity | discriminate]. }
  split; [exact Hm|].
  apply (post_greet_rejects_malformed_bodies [] []
           (Decoded (JObj {["name" := JNum 123]})) ∅).
  exact Hm.
Defined.

(** ** Preflight requests *)

Lemma combined_is_allowed_origin (o : string) :
  is_allowed_origin (mkCORS Combined.origins true ["*"]) o = mem o Combined.origins.
Proof. reflexivity. Qed.

(** An [OPTIONS] request on [/greet] that names an origin and a requested
    method is answered by the middleware. *)
Lemma combined_preflight get post q hs b st o m :
  header_get "origin" hs = Some o ->
  header_get "access-control-request-method" hs = Some m ->
  app_call (Combined.app_with get post) (OPTIONS "/greet" q hs b) st
  = (preflight_response (mkCORS Combined.origins true ["*"]) hs o m, st).
Proof.
  intros Ho Hm. unfold app_call, bind, cors_call.
  cbn [user_middleware Combined.app_with OPTIONS request_headers method].
  rewrite Ho, Hm. reflexivity.
Qed.

(** No [OPTIONS] request on [/greet] reaches an endpoint function: the
    answer and the store are the same whatever the two functions are. *)
Lemma combined_options_no_endpoint get post get' post' q hs b st :
  app_call (Combined.app_with get post) (OPTIONS "/greet" q hs b) st
  = app_call (Combined.app_with get' post') (OPTIONS "/greet" q hs b) st
  /\ snd (app_call (Combined.app_with get post) (OPTIONS "/greet" q hs b) st) = st.
Proof.
  unfold app_call, bind, cors_call, simple_response, bind.
  cbn [user_middleware Combined.app_with OPTIONS request_headers method].
  destruct (header_get "origin" hs) as [o|];
    [destruct (header_get "access-control-request-method" hs) as [m|]|];
    split; reflexivity.
Qed.

Lemma preflight_response_allowed hs o m :
  In o Combined.origins -> In m ALL_METHODS ->
  preflight_response (mkCORS Combined.origins true ["*"]) hs o m
  = mkResponse 200
      (let headers :=
         [("vary", "Origin");
          ("access-control-allow-methods", "DELETE, GET, HEAD, OPTIONS, PATCH, POST, PUT");
          ("access-control-max-age", "600");
          ("access-control-allow-credentials", "true");
          ("access-control-allow-origin", o)] in
       match header_get "access-control-request-headers" hs with
       | Some rh => (headers ++ [("access-control-allow-headers", rh)])%list
       | None => headers
       end)
      (PlainText "OK").
Proof.
  intros Ho Hm. unfold preflight_response.
  rewrite combined_is_allowed_origin, (proj2 (mem_In _ _) Ho).
  change (cors_methods (mkCORS Combined.origins true ["*"])) with ALL_METHODS.
  rewrite (proj2 (mem_In _ _) Hm).
  destruct (header_get "access-control-request-headers" hs); reflexivity.
Qed.

Lemma preflight_response_unlisted hs o m :
  ~ In o Combined.origins ->
  400 = status_code (preflight_response (mkCORS Combined.origins true ["*"]) hs o m)
  /\ header_get "access-control-allow-origin"
       (response_headers (preflight_response (mkCORS Combined.origins true ["*"]) hs o m))
     = None.
Proof.
  intros Ho. unfold preflight_response.
  rewrite combined_is_allowed_origin, (proj2 (mem_not_In _ _) Ho).
  change (cors_methods (mkCORS Combined.origins true ["*"])) with ALL_METHODS.
  destruct (mem m ALL_METHODS);
    destruct (header_get "access-control-request-headers" hs); split; reflexivity.
Qed.

(** C4, as stated, fails: an [OPTIONS /greet] preflight whose origin is in
    the list is refused with 400 when the method it asks for is not one of
    the seven that the wildcard stands for. *)
Lemma preflight_listed_origin_refused :
  header_get "origin" (request_headers preflight_propfind) = Some "http://localhost:8000"
  /\ In "http://localhost:8000" Combined.origins
  /\ app_call Combined.app preflight_propfind ∅
     = (mkResponse 400
          [("vary", "Origin");
           ("access-control-allow-methods", "DELETE, GET, HEAD, OPTIONS, PATCH, POST, PUT");
           ("access-control-max-age", "600");
           ("access-control-allow-credentials", "true");
           ("access-control-allow-origin", "http://localhost:8000")]
          (PlainText "Disallowed CORS method"), ∅)
  /\ status_code (respond Combined.app preflight_propfind ∅) <> 200.
Proof.
  split; [reflexivity|]. split; [left; reflexivity|]. split; [reflexivity|].
  vm_compute. discriminate.
Qed.

(** C4, amended.  No [OPTIONS /greet] request reaches an endpoint function,
    and none changes the store.  If the request names an origin from the list
    and asks, in [Access-Control-Request-Method], for one of DELETE, GET,
    HEAD, OPTIONS, PATCH, POST, PUT, the answer is 200 [OK] with the origin
    echoed in [Access-Control-Allow-Origin], the seven methods listed, the
    requested headers echoed and credentials allowed.  If the origin header
    is absent or names an origin outside the list, the answer is a 4xx
    without an [Access-Control-Allow-Origin] header. *)
Theorem preflight_policy
    (q hs : list (string * string)) (b : RawBody) (st : Store) :
  (forall get post,
     app_call (Combined.app_with get post) (OPTIONS "/greet" q hs b) st
     = (respond Combined.app (OPTIONS "/greet" q hs b) st, st))
  /\ (forall o m,
        header_get "origin" hs = Some o -> In o Combined.origins ->
        header_get "access-control-request-method" hs = Some m -> In m ALL_METHODS ->
        let r := respond Combined.app (OPTIONS "/greet" q hs b) st in
        status_code r = 200
        /\ body r = PlainText "OK"
        /\ header_get "access-control-allow-origin" (response_headers r) = Some o
        /\ header_get "access-control-allow-methods" (response_headers r)
           = Some "DELETE, GET, HEAD, OPTIONS, PATCH, POST, PUT"
        /\ header_get "access-control-allow-headers" (response_headers r)
           = header_get "access-control-request-headers" hs
        /\ header_get "access-control-allow-credentials" (response_headers r)
           = Some "true")
  /\ (header_get "origin" hs = None
      \/ (exists o, header_get "origin" hs = Some o /\ ~ In o Combined.origins) ->
      let r := respond Combined.app (OPTIONS "/greet" q hs b) st in
      400 <= status_code r < 500
      /\ header_get "access-control-allow-origin" (response_headers r) = None).
Proof.
  split; [|split].
  - intros get post.
    destruct (combined_options_no_endpoint get post Combined.greet_get Combined.greet_post
                q hs b st) as [Heq Hst].
    unfold respond, Combined.app. rewrite <- Heq.
    rewrite <- Hst at 3. apply surjective_pairing.
  - intros o m Ho Hin Hm Hmin r. subst r. unfold respond, Combined.app.
    rewrite (combined_preflight _ _ _ _ _ _ _ _ Ho Hm). cbn [fst].
    rewrite (preflight_response_allowed _ _ _ Hin Hmin).
    cbn [status_code body response_headers].
    destruct (header_get "access-control-request-headers" hs);
      repeat split; cbn; rewrite ?String.eqb_refl; reflexivity.
  - intros Horigin r. subst r. unfold respond, Combined.app.
    destruct Horigin as [Hnone | (o & Ho & Hin)].
    + unfold app_call, bind, cors_call.
      cbn [user_middleware Combined.app_with OPTIONS request_headers].
      rewrite Hnone. cbn. split; [lia | reflexivity].
    + destruct (header_get "access-control-request-method" hs) as [m|] eqn:Hm.
      * rewrite (combined_preflight _ _ _ _ _ _ _ _ Ho Hm). cbn [fst].
        destruct (preflight_response_unlisted hs o m Hin) as [<- ->].
        split; [lia | reflexivity].
      * unfold app_call, bind, cors_call, simple_response, bind.
        cbn [user_middleware Combined.app_with OPTIONS request_headers].
        rewrite Ho, Hm.
        cbn [router routes matches path method route_path methods mem existsb
             String.eqb Ascii.eqb Bool.eqb orb ret fst].
        unfold cors_send. rewrite combined_is_allowed_origin, (proj2 (mem_not_In _ _) Hin).
        cbn. split; [lia | reflexivity].
Qed.

Lemma preflight_policy_witness :
  header_get "origin"
    [("origin", "https://chrwittm.github.io");
     ("access-control-request-method", "POST");
     ("access-control-request-headers", "content-type")]
  = Some "https://chrwittm.github.io"
  /\ In "https://chrwittm.github.io" Combined.origins
  /\ In "POST" ALL_METHODS
  /\ status_code
       (respond Combined.app
          (OPTIONS "/greet" []
             [("origin", "https://chrwittm.github.io");
              ("access-control-request-method", "POST");
              ("access-control-request-headers", "content-type")] NoBody) ∅)
     = 200.
Proof.
  assert (Ho : In "https://chrwittm.github.io" Combined.origins)
    by (right; right; left; reflexivity).
  assert (Hm : In "POST" ALL_METHODS) by (do 5 right; left; reflexivity).
  split; [reflexivity|]. split; [exact Ho|]. split; [exact Hm|].
  apply (proj1 (proj2 (preflight_policy []
           [("origin", "https://chrwittm.github.io");
            ("access-control-request-method", "POST");
            ("access-control-request-headers", "content-type")] NoBody ∅))
           "https://chrwittm.github.io" "POST" eq_refl Ho eq_refl Hm).
Defined.

(** ** Ordinary requests through the middleware *)

Lemma header_get_add_vary (k v : string) (hs : list (string * string)) :
  k <> "vary" -> header_get k (add_vary_header v hs) = header_get k hs.
Proof.
  intros Hne. unfold add_vary_header.
  destruct (header_get "vary" hs); apply header_get_set_ne; congruence.
Qed.

(** The router of the final cell always sends a response, leaves the store
    alone, and never sets [Access-Control-Allow-Origin] by itself. *)
Lemma combined_router (req : Request) :
  exists r,
    (forall st, router (routes Combined.app) None req st = (Sent r, st))
    /\ header_get "access-control-allow-origin" (response_headers r) = None.
Proof.
  destruct req as [m p q hs b].
  unfold Combined.app, Combined.app_with. cbn [routes router].
  unfold matches. cbn [path method route_path methods].
  destruct (String.eqb p "/greet").
  - destruct (mem m ["GET"]).
    + unfold handle, solve_dependencies, bind. cbn [endpoint query_params response_model].
      destruct (query_get "name" q); unfold Combined.greet_get, ret;
        rewrite serialize_hello; eexists; split; reflexivity.
    + destruct (mem m ["POST"]).
      * unfold handle, solve_dependencies, bind.
        cbn [endpoint request_body response_model].
        destruct (read_body NameRequest_validate b).
        -- eexists; split; reflexivity.
        -- unfold Combined.greet_post, ret. rewrite serialize_hello.
           eexists; split; reflexivity.
      * eexists; split; reflexivity.
  - eexists; split; reflexivity.
Qed.

(** What the router of the final cell can send. *)
Lemma combined_router_shape (req : Request) :
  exists r,
    (forall st, router (routes Combined.app) None req st = (Sent r, st))
    /\ (response_headers r = [] \/ response_headers r = [("allow", "GET")])
    /\ In (status_code r) [200; 422; 405; 404].
Proof.
  destruct req as [m p q hs b].
  unfold Combined.app, Combined.app_with. cbn [routes router].
  unfold matches. cbn [path method route_path methods].
  destruct (String.eqb p "/greet").
  - destruct (mem m ["GET"]).
    + unfold handle, solve_dependencies, bind. cbn [endpoint query_params response_model].
      destruct (query_get "name" q); unfold Combined.greet_get, ret;
        rewrite serialize_hello; eexists; (split; [reflexivity|]);
        cbn; auto.
    + destruct (mem m ["POST"]).
      * unfold handle, solve_dependencies, bind.
        cbn [endpoint request_body response_model].
        destruct (read_body NameRequest_validate b).
        -- eexists; (split; [reflexivity|]); cbn; auto.
        -- unfold Combined.greet_post, ret. rewrite serialize_hello.
           eexists; (split; [reflexivity|]); cbn; auto.
      * eexists; (split; [reflexivity|]); cbn; auto 6.
  - eexists; (split; [reflexivity|]); cbn; auto 6.
Qed.

Lemma combined_cors_send_origin (o : string) (cookie : bool) (r : Response) :
  header_get "access-control-allow-origin" (response_headers r) = None ->
  header_get "access-control-allow-origin"
    (response_headers (cors_send (mkCORS Combined.origins true ["*"]) o cookie r))
  = if mem o Combined.origins then Some o else None.
Proof.
  intros Hr. unfold cors_send. rewrite combined_is_allowed_origin.
  change (allow_all_origins (mkCORS Combined.origins true ["*"])) with false.
  change (simple_headers (mkCORS Combined.origins true ["*"]))
    with [("access-control-allow-credentials", "true")].
  cbn [andb negb response_headers header_update fold_left fst snd].
  destruct (mem o Combined.origins).
  - unfold allow_explicit_origin.
    rewrite header_get_add_vary by discriminate. apply header_get_set_eq.
  - rewrite header_get_set_ne by discriminate. exact Hr.
Qed.

Lemma combined_cors_send_credentials (o : string) (cookie : bool) (r : Response) :
  header_get "access-control-allow-credentials"
    (response_headers (cors_send (mkCORS Combined.origins true ["*"]) o cookie r))
  = Some "true".
Proof.
  unfold cors_send. rewrite combined_is_allowed_origin.
  change (allow_all_origins (mkCORS Combined.origins true ["*"])) with false.
  change (simple_headers (mkCORS Combined.origins true ["*"]))
    with [("access-control-allow-credentials", "true")].
  cbn [andb negb response_headers header_update fold_left fst snd].
  destruct (mem o Combined.origins).
  - unfold allow_explicit_origin.
    rewrite header_get_add_vary by discriminate.
    rewrite header_get_set_ne by discriminate. apply header_get_set_eq.
  - apply header_get_set_eq.
Qed.

(** C5, as stated, fails: the cross-origin headers are not all withheld from
    an origin outside the list.  [GET /greet] from [https://example.org] is
    answered with [Access-Control-Allow-Credentials: true], though without
    [Access-Control-Allow-Origin]. *)
Lemma credentials_header_for_unlisted_origin :
  is_preflight get_unlisted_origin = false
  /\ header_get "origin" (request_headers get_unlisted_origin) = Some "https://example.org"
  /\ ~ In "https://example.org" Combined.origins
  /\ app_call Combined.app get_unlisted_origin ∅
     = (mkResponse 200 [("access-control-allow-credentials", "true")]
          (JSONBody (JObj {["message" := JStr "Hello World"]})), ∅)
  /\ header_get "access-control-allow-credentials"
       (response_headers (respond Combined.app get_unlisted_origin ∅))
     = Some "true".
Proof.
  split; [reflexivity|]. split; [reflexivity|].
  split; [intros [H | [H | [H | []]]]; discriminate|].
  split; reflexivity.
Qed.

(** C5, amended.  For every request that is not a preflight, the response
    carries [Access-Control-Allow-Origin] if and only if the request names an
    origin from the list (and then the header echoes that origin), and it
    carries [Access-Control-Allow-Credentials: true] if and only if the
    request names an origin at all, listed or not.  Status and body are those
    of the application without the middleware; a request without an origin
    header gets the very same response as without the middleware. *)
Theorem actual_request_cors_headers (req : Request) (st : Store) :
  is_preflight req = false ->
  (is_Some (header_get "access-control-allow-origin"
              (response_headers (respond Combined.app req st)))
   <-> exists o, header_get "origin" (request_headers req) = Some o
                 /\ In o Combined.origins)
  /\ (forall o, header_get "origin" (request_headers req) = Some o ->
                In o Combined.origins ->
                header_get "access-control-allow-origin"
                  (response_headers (respond Combined.app req st)) = Some o)
  /\ (is_Some (header_get "access-control-allow-credentials"
                 (response_headers (respond Combined.app req st)))
      <-> is_Some (header_get "origin" (request_headers req)))
  /\ (forall o, header_get "origin" (request_headers req) = Some o ->
                header_get "access-control-allow-credentials"
                  (response_headers (respond Combined.app req st)) = Some "true")
  /\ status_code (respond Combined.app req st)
     = status_code (respond (without_middleware Combined.app) req st)
  /\ body (respond Combined.app req st)
     = body (respond (without_middleware Combined.app) req st)
  /\ (header_get "origin" (request_headers req) = None ->
      app_call Combined.app req st = app_call (without_middleware Combined.app) req st).
Proof.
  intros Hp. destruct (combined_router_shape req) as (r & Hr & Hhs & _).
  assert (Hacao : header_get "access-control-allow-origin" (response_headers r) = None)
    by (destruct Hhs as [-> | ->]; reflexivity).
  assert (Hacac : header_get "access-control-allow-credentials" (response_headers r) = None)
    by (destruct Hhs as [-> | ->]; reflexivity).
  assert (Hin : app_call (without_middleware Combined.app) req st = (r, st)).
  { unfold app_call, without_middleware, bind. cbn [user_middleware routes].
    change (router _ None req st) with (router (routes Combined.app) None req st).
    rewrite Hr. reflexivity. }
  assert (Hout : app_call Combined.app req st
                 = (through_cors (mkCORS Combined.origins true ["*"]) req r, st)).
  { rewrite (app_call_ordinary Combined.app (mkCORS Combined.origins true ["*"])
               _ _ eq_refl Hp), Hr. reflexivity. }
  unfold respond. rewrite Hin, Hout. cbn [fst].
  rewrite through_cors_status, through_cors_body.
  unfold through_cors.
  destruct (header_get "origin" (request_headers req)) as [o|].
  - rewrite (combined_cors_send_origin _ _ _ Hacao), combined_cors_send_credentials.
    destruct (mem o Combined.origins) eqn:Hmem.
    + apply mem_In in Hmem.
      repeat split; try discriminate; eauto.
    + apply mem_not_In in Hmem.
      repeat split; try discriminate; eauto.
      * intros [x Hx]. discriminate.
      * intros (o' & [= <-] & Hin'). contradiction.
      * intros o' [= <-] Hin'. contradiction.
  - rewrite Hacao, Hacac. repeat split; try reflexivity; try discriminate.
    + intros [x Hx]. discriminate.
    + intros (o' & Ho' & _). discriminate.
    + intros [x Hx]. discriminate.
    + intros [x Hx]. discriminate.
Qed.

Lemma actual_request_cors_headers_witness :
  is_preflight (GET "/greet" [("name", "Ada")] [("origin", "https://chrwittm.github.io")] NoBody)
  = false
  /\ header_get "access-control-allow-origin"
       (response_headers
          (respond Combined.app
             (GET "/greet" [("name", "Ada")] [("origin", "https://chrwittm.github.io")] NoBody)
             ∅))
     = Some "https://chrwittm.github.io".
Proof.
  split; [reflexivity|].
  apply (actual_request_cors_headers
           (GET "/greet" [("name", "Ada")] [("origin", "https://chrwittm.github.io")] NoBody)
           ∅ eq_refl).
  - reflexivity.
  - right; right; left; reflexivity.
Defined.

(** The credentials header, by contrast, goes out with every response to a
    request that names an origin, listed or not. *)
Lemma credentials_header_for_any_origin (req : Request) (st : Store) (o : string) :
  is_preflight req = false ->
  header_get "origin" (request_headers req) = Some o ->
  header_get "access-control-allow-credentials"
    (response_headers (respond Combined.app req st)) = Some "true".
Proof.
  intros Hp Ho. destruct (combined_router req) as (r & Hr & _).
  unfold respond.
  rewrite (app_call_ordinary Combined.app (mkCORS Combined.origins true ["*"])
             _ _ eq_refl Hp), Hr.
  cbn [fst]. unfold through_cors. rewrite Ho. unfold cors_send.
  rewrite combined_is_allowed_origin.
  change (allow_all_origins (mkCORS Combined.origins true ["*"])) with false.
  change (simple_headers (mkCORS Combined.origins true ["*"]))
    with [("access-control-allow-credentials", "true")].
  cbn [andb negb response_headers header_update fold_left fst snd].
  destruct (mem o Combined.origins).
  - unfold allow_explicit_origin.
    rewrite header_get_add_vary by discriminate.
    rewrite header_get_set_ne by discriminate. apply header_get_set_eq.
  - apply header_get_set_eq.
Qed.

(** ** The shape of response bodies *)

Lemma JSONBody_JObj_inj (f1 f2 : gmap string json) :
  JSONBody (JObj f1) = JSONBody (JObj f2) -> f1 = f2.
Proof. intros H. injection H as H. exact H. Qed.

(** C8, as stated, fails: the service also emits responses whose body is not
    a greeting.  The answer to [POST /greet] with the body [{}] is a 422
    whose body is an object with the single key [detail]. *)
Lemma validation_error_body_is_no_greeting :
  app_call Combined.app post_empty_object ∅
  = (mkResponse 422 []
       (JSONBody (JObj {["detail" :=
          JArr [error_json (mkError "missing" ["body"; "name"] "Field required")]]})), ∅)
  /\ forall n,
       body (respond Combined.app post_empty_object ∅)
       <> JSONBody (JObj {["message" := JStr ("Hello " ++ n)]}).
Proof.
  split; [reflexivity|].
  intros n H.
  change (body (respond Combined.app post_empty_object ∅))
    with (JSONBody (JObj {["detail" :=
            JArr [error_json (mkError "missing" ["body"; "name"] "Field required")]]}))
    in H.
  apply JSONBody_JObj_inj in H.
  apply (f_equal (fun m : gmap string json => m !! "message")) in H.
  rewrite lookup_singleton_eq, lookup_singleton_ne in H by discriminate.
  discriminate.
Qed.

(** C8, amended.  Every 200 response to a [GET] or [POST] request on
    [/greet], that is every response an endpoint function produced, has as
    its body a JSON object with the single key [message], whose value is
    ["Hello "] followed by the resolved name: for [GET] the last [name] entry
    of the query string or else [World], for [POST] the string under [name]
    in the body. *)
Theorem endpoint_response_is_greeting
    (m : string) (q hs : list (string * string)) (b : RawBody) (st : Store) :
  m = "GET" \/ m = "POST" ->
  status_code (respond Combined.app (mkRequest m "/greet" q hs b) st) = 200 ->
  exists n,
    body (respond Combined.app (mkRequest m "/greet" q hs b) st)
    = JSONBody (JObj {["message" := JStr ("Hello " ++ n)]})
    /\ (m = "GET" -> n = default "World" (query_get "name" q))
    /\ (m = "POST" -> string_name b n).
Proof.
  intros [-> | ->] Hst.
  - change (mkRequest "GET" "/greet" q hs b) with (GET "/greet" q hs b).
    unfold respond. rewrite combined_get_greet. cbn [fst].
    rewrite through_cors_body. eexists. split; [reflexivity|].
    split; [reflexivity | discriminate].
  - change (mkRequest "POST" "/greet" q hs b) with (POST "/greet" q hs b) in *.
    destruct (read_body_cases b) as [[_ [errs He]] | (n & Hn & Hb)].
    + unfold respond, Combined.app in Hst.
      rewrite (combined_post_rejected _ _ _ _ _ _ _ He) in Hst.
      cbn [fst] in Hst. rewrite through_cors_status in Hst. discriminate.
    + unfold respond. rewrite (combined_post_greet _ _ _ _ _ Hb). cbn [fst].
      rewrite through_cors_body. exists n. split; [reflexivity|].
      split; [discriminate | intros _; exact Hn].
Qed.

Lemma endpoint_response_is_greeting_witness :
  exists n,
    body (respond Combined.app (mkRequest "GET" "/greet" [("name", "Ada")] [] NoBody) ∅)
    = JSONBody (JObj {["message" := JStr ("Hello " ++ n)]})
    /\ n = "Ada".
Proof.
  destruct (endpoint_response_is_greeting "GET" [("name", "Ada")] [] NoBody ∅
              (or_introl eq_refl) eq_refl) as (n & Hbody & Hget & _).
  exists n. split; [exact Hbody | exact (Hget eq_refl)].
Defined.

(** ** Repeated requests *)

Lemma stateless_ret {A} (a : A) : stateless (ret a).
Proof. exists a. reflexivity. Qed.

Lemma stateless_bind {A B} (c : M A) (k : A -> M B) :
  stateless c -> (forall a, stateless (k a)) -> stateless (bind c k).
Proof.
  intros [a Ha] Hk. destruct (Hk a) as [b0 Hb]. exists b0.
  intros st. unfold bind. rewrite Ha. apply Hb.
Qed.

Lemma handle_stateless (r : Route) (req : Request) :
  stateless_endpoint (endpoint r) -> stateless (handle r req).
Proof.
  unfold handle, solve_dependencies. destruct (endpoint r) as [f|alias d f|T model f]; cbn.
  - intros Hf. apply stateless_bind; [exact Hf | intros; apply stateless_ret].
  - intros Hf. destruct (query_get alias (query_params req));
      (apply stateless_bind; [apply Hf | intros; apply stateless_ret]).
  - intros Hf. destruct (read_body model (request_body req)).
    + apply stateless_ret.
    + apply stateless_bind; [apply Hf | intros; apply stateless_ret].
Qed.

Lemma router_stateless (rs : list Route) (partial : option Route) (req : Request) :
  Forall (fun r => stateless_endpoint (endpoint r)) rs ->
  stateless (router rs partial req).
Proof.
  intros H. revert partial. induction H as [|r rs Hr _ IH]; intros partial; cbn.
  - destruct partial; apply stateless_ret.
  - destruct (matches r req); [apply IH | apply IH | apply handle_stateless, Hr].
Qed.

Lemma cors_call_stateless c inner (req : Request) :
  stateless (inner req) -> stateless (cors_call c inner req).
Proof.
  intros Hi. unfold cors_call, simple_response.
  destruct (header_get "origin" _); [|exact Hi].
  destruct (header_get "access-control-request-method" _);
    [destruct (String.eqb _ _); [apply stateless_ret|]|];
    (apply stateless_bind; [exact Hi | intros; apply stateless_ret]).
Qed.

Lemma app_call_stateless (a : FastAPI) (req : Request) :
  stateless_routes a -> stateless (app_call a req).
Proof.
  intros Ha. unfold app_call.
  apply stateless_bind; [|intros; apply stateless_ret].
  destruct (user_middleware a);
    [apply cors_call_stateless|]; apply router_stateless, Ha.
Qed.

Lemma app_call_respond (a : FastAPI) (req : Request) (st st' : Store) :
  stateless_routes a -> app_call a req st = (respond a req st', st).
Proof.
  intros Ha. destruct (app_call_stateless a req Ha) as [r Hr].
  unfold respond. rewrite (Hr st), (Hr st'). reflexivity.
Qed.

Lemma serve_respond (a : FastAPI) (reqs : list Request) (st st' : Store) :
  stateless_routes a ->
  serve a reqs st = (map (fun req => respond a req st') reqs, st).
Proof.
  intros Ha. induction reqs as [|req reqs IH]; [reflexivity|].
  cbn [serve map]. unfold bind. rewrite (app_call_respond a req st st' Ha), IH.
  reflexivity.
Qed.

Lemma lookup_two_occurrences {A} (l1 l2 l3 : list A) (x : A) :
  (l1 ++ x :: l2 ++ x :: l3)%list !! length l1 = Some x
  /\ (l1 ++ x :: l2 ++ x :: l3)%list !! (length l1 + S (length l2))%nat = Some x.
Proof.
  split; [apply list_lookup_middle; reflexivity|].
  change (l1 ++ x :: l2 ++ x :: l3)%list with (l1 ++ (x :: l2) ++ x :: l3)%list.
  rewrite app_assoc. apply list_lookup_middle.
  rewrite length_app. reflexivity.
Qed.

Lemma cells_stateless (a : FastAPI) : In a cells -> stateless_routes a.
Proof.
  intros [<- | [<- | [<- | [<- | [<- | []]]]]];
    repeat constructor; cbn; intros; apply stateless_ret.
Qed.

(** C9.  In each of the five applications every endpoint function returns
    the same value from every store and leaves the store unchanged.  So does
    a whole request: the response is the same from any two stores, and
    serving any sequence of requests leaves the store as it was and answers
    each request as if it had been served alone; two occurrences of a request
    in a sequence, whatever comes before, between and after them, get the
    same response. *)
Theorem requests_are_repeatable
    (a : FastAPI) (pre mid post : list Request) (req : Request) (st st' : Store) :
  In a cells ->
  stateless_routes a
  /\ app_call a req st = (respond a req st', st)
  /\ snd (serve a (pre ++ req :: mid ++ req :: post) st) = st
  /\ fst (serve a (pre ++ req :: mid ++ req :: post) st) !! length pre
     = Some (respond a req st')
  /\ fst (serve a (pre ++ req :: mid ++ req :: post) st) !! (length pre + S (length mid))%nat
     = Some (respond a req st').
Proof.
  intros Hin. pose proof (cells_stateless a Hin) as Ha.
  split; [exact Ha|]. split; [apply app_call_respond, Ha|].
  rewrite (serve_respond a _ st st' Ha). cbn [fst snd].
  split; [reflexivity|].
  rewrite !map_app. cbn [map]. rewrite !map_app. cbn [map].
  rewrite <- (length_map (fun r => respond a r st') pre).
  rewrite <- (length_map (fun r => respond a r st') mid).
  apply lookup_two_occurrences.
Qed.

Lemma requests_are_repeatable_witness :
  In Combined.app cells
  /\ fst (serve Combined.app
            ([GET "/greet" [] [] NoBody]
             ++ POST "/greet" [] [] (Decoded (JObj {["name" := JStr "Alice"]}))
             :: [GET "/" [] [] NoBody]
             ++ POST "/greet" [] [] (Decoded (JObj {["name" := JStr "Alice"]}))
             :: []) ∅) !! 1%nat
     = Some (respond Combined.app
               (POST "/greet" [] [] (Decoded (JObj {["name" := JStr "Alice"]}))) ∅).
Proof.
  assert (Hin : In Combined.app cells) by (do 4 right; left; reflexivity).
  split; [exact Hin|].
  apply (requests_are_repeatable Combined.app
           [GET "/greet" [] [] NoBody] [GET "/" [] [] NoBody] []
           (POST "/greet" [] [] (Decoded (JObj {["name" := JStr "Alice"]}))) ∅ ∅ Hin).
Defined.

(** ** The runs recorded in the notebook *)

(** The server logs kept in the notebook show three answers to [OPTIONS]
    requests sent by a page opened from the file system, whose origin a
    browser reports as [null]. *)

(** Greeting 1, no middleware: 405 Method Not Allowed. *)
Example log_greeting1_options :
  status_code
    (respond Greeting1.app
       (OPTIONS "/greet" [("name", "Christian")]
          [("origin", "null"); ("access-control-request-method", "GET")] NoBody) ∅)
  = 405.
Proof. reflexivity. Qed.

(** Every origin allowed: 200 OK. *)
Example log_cors_enabled_options :
  status_code
    (respond CorsEnabled.app
       (OPTIONS "/greet" [("name", "Christian")]
          [("origin", "null"); ("access-control-request-method", "GET")] NoBody) ∅)
  = 200.
Proof. reflexivity. Qed.

(** Origins restricted to the list: 400 Bad Request. *)
Example log_combined_options :
  app_call Combined.app
    (OPTIONS "/greet" []
       [("origin", "null"); ("access-control-request-method", "POST");
        ("access-control-request-headers", "content-type")] NoBody) ∅
  = (mkResponse 400
       [("vary", "Origin");
        ("access-control-allow-methods", "DELETE, GET, HEAD, OPTIONS, PATCH, POST, PUT");
        ("access-control-max-age", "600");
        ("access-control-allow-credentials", "true");
        ("access-control-allow-headers", "content-type")]
       (PlainText "Disallowed CORS origin"), ∅).
Proof. reflexivity. Qed.

(** The final cell declares no route for [/]. *)
Example combined_has_no_root :
  status_code (respond Combined.app (GET "/" [] [] NoBody) ∅) = 404.
Proof. reflexivity. Qed.

(** ** The cases the specification lists *)

Example post_alice :
  app_call Combined.app
    (POST "/greet" [] [] (Decoded (JObj {["name" := JStr "Alice"]}))) ∅
  = (mkResponse 200 [] (JSONBody (JObj {["message" := JStr "Hello Alice"]})), ∅).
Proof. reflexivity. Qed.

Example post_not_json :
  status_code (respond Combined.app (POST "/greet" [] [] Undecodable) ∅) = 422.
Proof. reflexivity. Qed.

Example post_name_number :
  status_code
    (respond Combined.app (POST "/greet" [] [] (Decoded (JObj {["name" := JNum 123]}))) ∅)
  = 422.
Proof. reflexivity. Qed.

Example get_empty_name :
  app_call Combined.app (GET "/greet" [("name", "")] [] NoBody) ∅
  = (mkResponse 200 [] (JSONBody (JObj {["message" := JStr "Hello "]})), ∅).
Proof. reflexivity. Qed.

Example get_repeated_name :
  app_call Combined.app (GET "/greet" [("name", "a"); ("name", "b")] [] NoBody) ∅
  = (mkResponse 200 [] (JSONBody (JObj {["message" := JStr "Hello b"]})), ∅).
Proof. reflexivity. Qed.

(** * The other cells, and more on the final one *)

(** ** Greeting 1: the query endpoint without middleware *)

Lemma mem_single_ne (m k : string) : m <> k -> mem m [k] = false.
Proof.
  intros Hne. unfold mem. cbn. apply String.eqb_neq in Hne. rewrite Hne. reflexivity.
Qed.

(** X1.  [GET /greet] on the first cell answers 200 with the greeting of the
    last [name] entry of the query string, or of [World] when there is none.
    No request header changes the answer, and the response carries no
    cross-origin header even when the request names an origin. *)
Theorem greeting1_greet
    (q hs : list (string * string)) (b : RawBody) (st : Store) :
  app_call Greeting1.app (GET "/greet" q hs b) st
  = (mkResponse 200 []
       (JSONBody (JObj {["message" :=
          JStr ("Hello " ++ default "World" (query_get "name" q))]})), st).
Proof.
  unfold app_call, bind. cbn -[query_get].
  unfold handle, solve_dependencies, bind. cbn -[query_get].
  destruct (query_get "name" q); reflexivity.
Qed.

(** X2.  The first cell declares [GET] only: on [/] and on [/greet] every
    other method, [OPTIONS] with the headers of a preflight included, is
    answered 405 with [Allow: GET]. *)
Theorem greeting1_only_get
    (m p : string) (q hs : list (string * string)) (b : RawBody) (st : Store) :
  m <> "GET" ->
  p = "/" \/ p = "/greet" ->
  app_call Greeting1.app (mkRequest m p q hs b) st
  = (mkResponse 405 [("allow", "GET")]
       (JSONBody (JObj {["detail" := JStr "Method Not Allowed"]})), st).
Proof.
  intros Hm Hp. unfold app_call, bind.
  cbn [user_middleware routes Greeting1.app router].
  unfold matches. cbn [path method route_path methods].
  rewrite (mem_single_ne _ _ Hm).
  destruct Hp as [-> | ->]; reflexivity.
Qed.

Lemma greeting1_only_get_witness :
  "OPTIONS" <> "GET"
  /\ status_code
       (respond Greeting1.app
          (mkRequest "OPTIONS" "/greet" [("name", "Christian")]
             [("origin", "null"); ("access-control-request-method", "GET")] NoBody) ∅)
     = 405.
Proof.
  split; [discriminate|].
  unfold respond.
  rewrite (greeting1_only_get "OPTIONS" "/greet" [("name", "Christian")]
             [("origin", "null"); ("access-control-request-method", "GET")] NoBody ∅);
    [reflexivity | discriminate | right; reflexivity].
Defined.

(** ** The documented variant *)

(** X3.  Declaring the response model changes no answer on [/greet]: the
    second cell answers every request on that path, whatever its method,
    query string, headers and body, exactly as the first cell does. *)
Theorem documented_same_as_greeting1
    (m : string) (q hs : list (string * string)) (b : RawBody) (st : Store) :
  app_call Documented.app (mkRequest m "/greet" q hs b) st
  = app_call Greeting1.app (mkRequest m "/greet" q hs b) st.
Proof.
  unfold app_call, bind.
  cbn [user_middleware routes Greeting1.app Documented.app router].
  unfold matches.
  cbn [path method route_path methods String.eqb Ascii.eqb Bool.eqb].
  destruct (mem m ["GET"]); [|reflexivity].
  unfold handle, solve_dependencies, bind.
  cbn [endpoint query_params response_model].
  destruct (query_get "name" q);
    unfold Documented.greet, Greeting1.greet, ret;
    rewrite serialize_hello; reflexivity.
Qed.

(** ** Every origin allowed *)

(** X4.  With every origin allowed and credentials on, [GET /greet] from a
    request that names an origin gets the usual greeting with
    [Access-Control-Allow-Origin: *] and
    [Access-Control-Allow-Credentials: true]; when the request also carries a
    cookie the origin itself is echoed instead of the wildcard, with
    [Vary: Origin]. *)
Theorem cors_enabled_greet
    (o : string) (q hs : list (string * string)) (b : RawBody) (st : Store) :
  header_get "origin" hs = Some o ->
  app_call CorsEnabled.app (GET "/greet" q hs b) st
  = (mkResponse 200
       (match header_get "cookie" hs with
        | Some _ =>
            [("access-control-allow-origin", o);
             ("access-control-allow-credentials", "true");
             ("vary", "Origin")]
        | None =>
            [("access-control-allow-origin", "*");
             ("access-control-allow-credentials", "true")]
        end)
       (JSONBody (JObj {["message" :=
          JStr ("Hello " ++ default "World" (query_get "name" q))]})), st).
Proof.
  intros Ho.
  rewrite (app_call_ordinary CorsEnabled.app (mkCORS ["*"] true ["*"])
             _ _ eq_refl (GET_not_preflight _ _ _ _)).
  cbn [routes CorsEnabled.app router]. unfold matches.
  cbn [path method route_path methods GET mem existsb String.eqb Ascii.eqb Bool.eqb orb].
  unfold handle, solve_dependencies, bind, through_cors.
  cbn [endpoint query_params response_model request_headers GET]. rewrite Ho.
  destruct (query_get "name" q); destruct (header_get "cookie" hs); reflexivity.
Qed.

Lemma cors_enabled_greet_witness :
  header_get "origin" [("origin", "null")] = Some "null"
  /\ app_call CorsEnabled.app (GET "/greet" [("name", "Christian")] [("origin", "null")] NoBody) ∅
     = (mkResponse 200
          [("access-control-allow-origin", "*");
           ("access-control-allow-credentials", "true")]
          (JSONBody (JObj {["message" := JStr "Hello Christian"]})), ∅).
Proof.
  split; [reflexivity|].
  apply (cors_enabled_greet "null" [("name", "Christian")] [("origin", "null")] NoBody ∅
           eq_refl).
Defined.

(** X5.  With every origin allowed, a preflight is never refused for its
    origin: whatever the origin and the path, the answer echoes the origin in
    [Access-Control-Allow-Origin], and it is 200 exactly when the requested
    method is one of the seven the wildcard stands for, 400 otherwise. *)
Theorem cors_enabled_preflight
    (o m p : string) (q hs : list (string * string)) (b : RawBody) (st : Store) :
  header_get "origin" hs = Some o ->
  header_get "access-control-request-method" hs = Some m ->
  (status_code (respond CorsEnabled.app (OPTIONS p q hs b) st) = 200 <-> In m ALL_METHODS)
  /\ (status_code (respond CorsEnabled.app (OPTIONS p q hs b) st) = 400
      <-> ~ In m ALL_METHODS)
  /\ header_get "access-control-allow-origin"
       (response_headers (respond CorsEnabled.app (OPTIONS p q hs b) st)) = Some o
  /\ snd (app_call CorsEnabled.app (OPTIONS p q hs b) st) = st.
Proof.
  intros Ho Hm. unfold respond, app_call, bind, cors_call.
  cbn [user_middleware CorsEnabled.app OPTIONS request_headers method].
  rewrite Ho, Hm.
  cbn [String.eqb Ascii.eqb Bool.eqb ret fst snd].
  unfold preflight_response.
  change (is_allowed_origin (mkCORS ["*"] true ["*"]) o) with true.
  change (cors_methods (mkCORS ["*"] true ["*"])) with ALL_METHODS.
  change (preflight_explicit_allow_origin (mkCORS ["*"] true ["*"])) with true.
  destruct (mem m ALL_METHODS) eqn:Hmem;
    [apply mem_In in Hmem | apply mem_not_In in Hmem];
    destruct (header_get "access-control-request-headers" hs);
    cbn; (split; [|split; [|split]]); try reflexivity;
    split; intros H; try discriminate; try assumption; try contradiction; reflexivity.
Qed.

Lemma cors_enabled_preflight_witness :
  header_get "origin" [("origin", "null"); ("access-control-request-method", "GET")]
  = Some "null"
  /\ header_get "access-control-request-method"
       [("origin", "null"); ("access-control-request-method", "GET")] = Some "GET"
  /\ header_get "access-control-allow-origin"
       (response_headers
          (respond CorsEnabled.app
             (OPTIONS "/greet" [("name", "Christian")]
                [("origin", "null"); ("access-control-request-method", "GET")] NoBody) ∅))
     = Some "null".
Proof.
  split; [reflexivity|]. split; [reflexivity|].
  apply (cors_enabled_preflight "null" "GET" "/greet" [("name", "Christian")]
           [("origin", "null"); ("access-control-request-method", "GET")] NoBody ∅
           eq_refl eq_refl).
Defined.

(** ** Greeting 2: the body endpoint alone *)

(** [POST /greet] on the fourth cell. *)
Lemma greeting2_post_greet q hs b st :
  app_call Greeting2.app (POST "/greet" q hs b) st
  = (through_cors (mkCORS ["*"] true ["*"]) (POST "/greet" q hs b)
       match read_body NameRequest_validate b with
       | inl errs => unprocessable errs
       | inr x => mkResponse 200 [] (hello (name x))
       end, st).
Proof.
  rewrite (app_call_ordinary Greeting2.app (mkCORS ["*"] true ["*"])
             _ _ eq_refl (POST_not_preflight _ _ _ _)).
  cbn [routes Greeting2.app router]. unfold matches.
  cbn [path method route_path methods POST mem existsb String.eqb Ascii.eqb Bool.eqb orb].
  unfold handle, solve_dependencies, bind.
  cbn [endpoint request_body response_model POST].
  destruct (read_body NameRequest_validate b); reflexivity.
Qed.

(** X6.  The fourth cell declares [POST] only: a request on [/greet] with any
    other method that is not a preflight, [GET] from a browser's address bar
    for one, is answered 405 with [Allow: POST], and the store is left as it
    was. *)
Theorem greeting2_only_post
    (m : string) (q hs : list (string * string)) (b : RawBody) (st : Store) :
  m <> "POST" ->
  is_preflight (mkRequest m "/greet" q hs b) = false ->
  status_code (respond Greeting2.app (mkRequest m "/greet" q hs b) st) = 405
  /\ header_get "allow"
       (response_headers (respond Greeting2.app (mkRequest m "/greet" q hs b) st))
     = Some "POST"
  /\ body (respond Greeting2.app (mkRequest m "/greet" q hs b) st)
     = JSONBody (JObj {["detail" := JStr "Method Not Allowed"]})
  /\ snd (app_call Greeting2.app (mkRequest m "/greet" q hs b) st) = st.
Proof.
  intros Hm Hp. unfold respond.
  rewrite (app_call_ordinary Greeting2.app (mkCORS ["*"] true ["*"]) _ _ eq_refl Hp).
  cbn [routes Greeting2.app router]. unfold matches.
  cbn [path method route_path methods]. rewrite (mem_single_ne _ _ Hm).
  cbn [String.eqb Ascii.eqb Bool.eqb ret fst snd].
  rewrite through_cors_status, through_cors_body.
  repeat split. unfold through_cors. cbn [request_headers].
  destruct (header_get "origin" hs); [|reflexivity].
  destruct (bool_decide _); reflexivity.
Qed.

Lemma greeting2_only_post_witness :
  "GET" <> "POST"
  /\ is_preflight (mkRequest "GET" "/greet" [("name", "Ada")] [] NoBody) = false
  /\ status_code
       (respond Greeting2.app (mkRequest "GET" "/greet" [("name", "Ada")] [] NoBody) ∅)
     = 405.
Proof.
  assert (H : "GET" <> "POST") by discriminate.
  split; [exact H|]. split; [reflexivity|].
  apply (greeting2_only_post "GET" [("name", "Ada")] [] NoBody ∅ H eq_refl).
Defined.

(** ** The final cell against the earlier ones *)

(** X7.  Putting the endpoints together changes no answer: on [/greet] the
    final cell gives [GET] the status and body the first cell gives, and
    [POST] the status and body the fourth cell gives; for a request that
    names no origin the whole responses are the same. *)
Theorem combined_extends_cells
    (q hs : list (string * string)) (b : RawBody) (st : Store) :
  (status_code (respond Combined.app (GET "/greet" q hs b) st)
   = status_code (respond Greeting1.app (GET "/greet" q hs b) st)
   /\ body (respond Combined.app (GET "/greet" q hs b) st)
      = body (respond Greeting1.app (GET "/greet" q hs b) st))
  /\ (status_code (respond Combined.app (POST "/greet" q hs b) st)
      = status_code (respond Greeting2.app (POST "/greet" q hs b) st)
      /\ body (respond Combined.app (POST "/greet" q hs b) st)
         = body (respond Greeting2.app (POST "/greet" q hs b) st))
  /\ (header_get "origin" hs = None ->
      app_call Combined.app (GET "/greet" q hs b) st
      = app_call Greeting1.app (GET "/greet" q hs b) st
      /\ app_call Combined.app (POST "/greet" q hs b) st
         = app_call Greeting2.app (POST "/greet" q hs b) st).
Proof.
  assert (Hpost : app_call Combined.app (POST "/greet" q hs b) st
                  = (through_cors (mkCORS Combined.origins true ["*"])
                       (POST "/greet" q hs b)
                       match read_body NameRequest_validate b with
                       | inl errs => unprocessable errs
                       | inr x => mkResponse 200 [] (hello (name x))
                       end, st)).
  { destruct (read_body NameRequest_validate b) as [errs|x] eqn:Hb.
    - apply combined_post_rejected, Hb.
    - apply combined_post_greet, Hb. }
  assert (Hget1 : app_call Greeting1.app (GET "/greet" q hs b) st
                  = (mkResponse 200 [] (hello (default "World" (query_get "name" q))), st)).
  { unfold app_call, bind. cbn -[query_get].
    unfold handle, solve_dependencies, bind. cbn -[query_get].
    destruct (query_get "name" q); reflexivity. }
  unfold respond.
  rewrite combined_get_greet, Hget1, Hpost, greeting2_post_greet.
  cbn [fst]. rewrite !through_cors_status, !through_cors_body.
  split; [split; reflexivity|]. split; [split; reflexivity|].
  intros Ho. unfold through_cors. cbn [request_headers GET POST]. rewrite Ho.
  split; reflexivity.
Qed.

Lemma combined_extends_cells_witness :
  header_get "origin" [("accept", "application/json")] = None
  /\ app_call Combined.app
       (POST "/greet" [] [("accept", "application/json")]
          (Decoded (JObj {["name" := JStr "Alice"]}))) ∅
     = app_call Greeting2.app
         (POST "/greet" [] [("accept", "application/json")]
            (Decoded (JObj {["name" := JStr "Alice"]}))) ∅.
Proof.
  split; [reflexivity|].
  apply (combined_extends_cells [] [("accept", "application/json")]
           (Decoded (JObj {["name" := JStr "Alice"]})) ∅).
  reflexivity.
Defined.

(** ** The final cell: methods, paths and status codes *)

(** X8.  On [/greet] of the final cell every method other than [GET] and
    [POST], unless the request is a preflight, is answered 405, and the
    [Allow] header names [GET] alone, the method of the route declared first.
    No endpoint function is called. *)
Theorem combined_method_not_allowed
    (m : string) (q hs : list (string * string)) (b : RawBody) (st : Store)
    (get : string -> M json) (post : NameRequest -> M json) :
  m <> "GET" -> m <> "POST" ->
  is_preflight (mkRequest m "/greet" q hs b) = false ->
  app_call (Combined.app_with get post) (mkRequest m "/greet" q hs b) st
  = (respond Combined.app (mkRequest m "/greet" q hs b) st, st)
  /\ status_code (respond Combined.app (mkRequest m "/greet" q hs b) st) = 405
  /\ header_get "allow"
       (response_headers (respond Combined.app (mkRequest m "/greet" q hs b) st))
     = Some "GET"
  /\ body (respond Combined.app (mkRequest m "/greet" q hs b) st)
     = JSONBody (JObj {["detail" := JStr "Method Not Allowed"]}).
Proof.
  intros Hg Hp Hpre.
  assert (Hcall : forall get post,
    app_call (Combined.app_with get post) (mkRequest m "/greet" q hs b) st
    = (through_cors (mkCORS Combined.origins true ["*"]) (mkRequest m "/greet" q hs b)
         (mkResponse 405 [("allow", "GET")]
            (JSONBody (JObj {["detail" := JStr "Method Not Allowed"]}))), st)).
  { intros get' post'.
    rewrite (app_call_ordinary (Combined.app_with get' post')
               (mkCORS Combined.origins true ["*"]) _ _ eq_refl Hpre).
    cbn [routes Combined.app_with router]. unfold matches.
    cbn [path method route_path methods].
    rewrite (mem_single_ne _ _ Hg), (mem_single_ne _ _ Hp). reflexivity. }
  unfold respond, Combined.app. rewrite !Hcall. cbn [fst].
  rewrite through_cors_status, through_cors_body.
  repeat split. unfold through_cors. cbn [request_headers].
  destruct (header_get "origin" hs) as [o|]; [|reflexivity].
  unfold cors_send. rewrite combined_is_allowed_origin.
  destruct (mem o Combined.origins); reflexivity.
Qed.

Lemma combined_method_not_allowed_witness :
  "DELETE" <> "GET" /\ "DELETE" <> "POST"
  /\ is_preflight (mkRequest "DELETE" "/greet" [] [] NoBody) = false
  /\ status_code (respond Combined.app (mkRequest "DELETE" "/greet" [] [] NoBody) ∅) = 405.
Proof.
  assert (Hg : "DELETE" <> "GET") by discriminate.
  assert (Hp : "DELETE" <> "POST") by discriminate.
  split; [exact Hg|]. split; [exact Hp|]. split; [reflexivity|].
  apply (combined_method_not_allowed "DELETE" [] [] NoBody ∅
           Combined.greet_get Combined.greet_post Hg Hp eq_refl).
Defined.

(** An [OPTIONS] request that names an origin and a requested method is
    answered by the middleware on every path. *)
Lemma combined_preflight_path get post p q hs b st o m :
  header_get "origin" hs = Some o ->
  header_get "access-control-request-method" hs = Some m ->
  app_call (Combined.app_with get post) (OPTIONS p q hs b) st
  = (preflight_response (mkCORS Combined.origins true ["*"]) hs o m, st).
Proof.
  intros Ho Hm. unfold app_call, bind, cors_call.
  cbn [user_middleware Combined.app_with OPTIONS request_headers method].
  rewrite Ho, Hm. reflexivity.
Qed.

(** X9.  The middleware answers a preflight before any routing: the answer
    of the final cell to an [OPTIONS] request that names an origin and a
    requested method is the same for every path, query string and body, and
    whatever the endpoint functions are. *)
Theorem combined_preflight_any_path
    (o m p : string) (q hs : list (string * string)) (b : RawBody) (st : Store)
    (get : string -> M json) (post : NameRequest -> M json) :
  header_get "origin" hs = Some o ->
  header_get "access-control-request-method" hs = Some m ->
  app_call (Combined.app_with get post) (OPTIONS p q hs b) st
  = app_call Combined.app (OPTIONS "/greet" [] hs NoBody) st.
Proof.
  intros Ho Hm. unfold Combined.app.
  rewrite !(combined_preflight_path _ _ _ _ _ _ _ _ _ Ho Hm). reflexivity.
Qed.

Lemma combined_preflight_any_path_witness :
  header_get "origin"
    [("origin", "https://chrwittm.github.io"); ("access-control-request-method", "POST")]
  = Some "https://chrwittm.github.io"
  /\ header_get "access-control-request-method"
       [("origin", "https://chrwittm.github.io"); ("access-control-request-method", "POST")]
     = Some "POST"
  /\ status_code
       (respond Combined.app
          (OPTIONS "/nowhere" []
             [("origin", "https://chrwittm.github.io");
              ("access-control-request-method", "POST")] NoBody) ∅)
     = 200.
Proof.
  split; [reflexivity|]. split; [reflexivity|].
  unfold respond.
  rewrite (combined_preflight_any_path "https://chrwittm.github.io" "POST" "/nowhere" []
             [("origin", "https://chrwittm.github.io");
              ("access-control-request-method", "POST")] NoBody ∅
             Combined.greet_get Combined.greet_post eq_refl eq_refl).
  reflexivity.
Defined.

(** X10.  The root endpoint of the first cell is not part of the final one:
    on [/] the final cell answers every request that is not a preflight,
    whatever its method, query string, headers and body, with 404
    [Not Found], without calling an endpoint function. *)
Theorem combined_has_no_root_endpoint
    (m : string) (q hs : list (string * string)) (b : RawBody) (st : Store)
    (get : string -> M json) (post : NameRequest -> M json) :
  is_preflight (mkRequest m "/" q hs b) = false ->
  app_call (Combined.app_with get post) (mkRequest m "/" q hs b) st
  = (respond Combined.app (mkRequest m "/" q hs b) st, st)
  /\ status_code (respond Combined.app (mkRequest m "/" q hs b) st) = 404
  /\ body (respond Combined.app (mkRequest m "/" q hs b) st)
     = JSONBody (JObj {["detail" := JStr "Not Found"]}).
Proof.
  intros Hpre.
  assert (Hcall : forall get post,
    app_call (Combined.app_with get post) (mkRequest m "/" q hs b) st
    = (through_cors (mkCORS Combined.origins true ["*"]) (mkRequest m "/" q hs b)
         not_found, st)).
  { intros get' post'.
    rewrite (app_call_ordinary (Combined.app_with get' post')
               (mkCORS Combined.origins true ["*"]) _ _ eq_refl Hpre).
    reflexivity. }
  unfold respond, Combined.app. rewrite !Hcall. cbn [fst].
  rewrite through_cors_status, through_cors_body. repeat split.
Qed.

Lemma combined_has_no_root_endpoint_witness :
  is_preflight (mkRequest "GET" "/" [] [] NoBody) = false
  /\ status_code (respond Combined.app (mkRequest "GET" "/" [] [] NoBody) ∅) = 404.
Proof.
  split; [reflexivity|].
  apply (combined_has_no_root_endpoint "GET" [] [] NoBody ∅
           Combined.greet_get Combined.greet_post eq_refl).
Defined.

(** X11.  On [/greet] the final cell never answers 500: whatever the method,
    query string, headers and body of the request, the status is one of 200,
    400, 405 and 422. *)
Theorem combined_status_codes
    (m : string) (q hs : list (string * string)) (b : RawBody) (st : Store) :
  In (status_code (respond Combined.app (mkRequest m "/greet" q hs b) st))
    [200; 400; 405; 422].
Proof.
  destruct (is_preflight (mkRequest m "/greet" q hs b)) eqn:Hpre.
  - unfold is_preflight in Hpre. cbn [method request_headers] in Hpre.
    destruct (String.eqb m "OPTIONS") eqn:Hm; [|discriminate].
    apply String.eqb_eq in Hm. subst m.
    destruct (header_get "origin" hs) as [o|] eqn:Ho; [|discriminate].
    destruct (header_get "access-control-request-method" hs) as [rm|] eqn:Hrm;
      [|discriminate].
    change (mkRequest "OPTIONS" "/greet" q hs b) with (OPTIONS "/greet" q hs b).
    unfold respond, Combined.app.
    rewrite (combined_preflight_path _ _ _ _ _ _ _ _ _ Ho Hrm).
    cbn [fst]. unfold preflight_response.
    destruct (is_allowed_origin _ o); destruct (mem rm _); cbn; auto.
  - unfold respond.
    rewrite (app_call_ordinary Combined.app (mkCORS Combined.origins true ["*"])
               _ _ eq_refl Hpre).
    unfold Combined.app, Combined.app_with. cbn [routes router].
    unfold matches.
    cbn [path method route_path methods String.eqb Ascii.eqb Bool.eqb].
    destruct (mem m ["GET"]).
    + unfold handle, solve_dependencies, bind.
      cbn [endpoint query_params response_model].
      destruct (query_get "name" q); unfold Combined.greet_get, ret;
        rewrite serialize_hello; cbn [fst]; rewrite through_cors_status; cbn; auto.
    + destruct (mem m ["POST"]).
      * unfold handle, solve_dependencies, bind.
        cbn [endpoint request_body response_model].
        destruct (read_body NameRequest_validate b).
        -- cbn [ret fst]. rewrite through_cors_status. cbn; auto.
        -- unfold Combined.greet_post, ret. rewrite serialize_hello.
           cbn [fst]. rewrite through_cors_status. cbn; auto.
      * cbn [ret fst]. rewrite through_cors_status. cbn; auto.
Qed.

(** X12.  For a request that is not a preflight, the final cell sets
    [Vary: Origin] exactly when it echoes the origin: the header is there
    when the request names an origin from the list, and absent when the
    origin is outside the list or missing. *)
Theorem combined_vary_with_echoed_origin (req : Request) (st : Store) :
  is_preflight req = false ->
  (forall o, header_get "origin" (request_headers req) = Some o ->
             In o Combined.origins ->
             header_get "vary" (response_headers (respond Combined.app req st))
             = Some "Origin")
  /\ (header_get "origin" (request_headers req) = None
      \/ (exists o, header_get "origin" (request_headers req) = Some o
                    /\ ~ In o Combined.origins) ->
      header_get "vary" (response_headers (respond Combined.app req st)) = None).
Proof.
  intros Hpre. destruct (combined_router_shape req) as (r & Hr & Hhs & _).
  unfold respond.
  rewrite (app_call_ordinary Combined.app (mkCORS Combined.origins true ["*"])
             _ _ eq_refl Hpre), Hr.
  cbn [fst]. unfold through_cors.
  destruct (header_get "origin" (request_headers req)) as [o|].
  - unfold cors_send. rewrite combined_is_allowed_origin.
    split.
    + intros o' [= <-] Hin. rewrite (proj2 (mem_In _ _) Hin).
      destruct Hhs as [-> | ->]; reflexivity.
    + intros [Hnone | (o' & [= <-] & Hnin)]; [discriminate|].
      rewrite (proj2 (mem_not_In _ _) Hnin).
      destruct Hhs as [-> | ->]; reflexivity.
  - split; [discriminate|]. intros _. destruct Hhs as [-> | ->]; reflexivity.
Qed.

Lemma combined_vary_with_echoed_origin_witness :
  is_preflight (GET "/greet" [] [("origin", "http://127.0.0.1:8000")] NoBody) = false
  /\ header_get "vary"
       (response_headers
          (respond Combined.app
             (GET "/greet" [] [("origin", "http://127.0.0.1:8000")] NoBody) ∅))
     = Some "Origin".
Proof.
  split; [reflexivity|].
  apply (proj1 (combined_vary_with_echoed_origin
                  (GET "/greet" [] [("origin", "http://127.0.0.1:8000")] NoBody) ∅
                  eq_refl) "http://127.0.0.1:8000" eq_refl).
  right; left; reflexivity.
Defined.

(** ** Binding of the query parameter *)

Lemma query_get_app_last (k v : string) (q : list (string * string)) :
  query_get k (q ++ [(k, v)]) = Some v.
Proof.
  unfold query_get. rewrite fold_left_app. cbn. rewrite String.eqb_refl. reflexivity.
Qed.

Lemma query_fold_filter (k : string) (q : list (string * string)) (acc : option string) :
  fold_left (fun acc kv => if String.eqb (fst kv) k then Some (snd kv) else acc)
    (List.filter (fun kv => String.eqb (fst kv) k) q) acc
  = fold_left (fun acc kv => if String.eqb (fst kv) k then Some (snd kv) else acc) q acc.
Proof.
  revert acc. induction q as [|[k' v'] q IH]; intros acc; [reflexivity|].
  cbn. destruct (String.eqb k' k) eqn:E; cbn; rewrite ?E; apply IH.
Qed.

Lemma query_get_filter (k : string) (q : list (string * string)) :
  query_get k (List.filter (fun kv => String.eqb (fst kv) k) q) = query_get k q.
Proof. apply query_fold_filter. Qed.

(** X13.  The query endpoint of the final cell reads the last [name] entry
    and nothing else of the query string: a request whose query string ends
    with [name=n] is answered as the one with [name=n] alone, and dropping
    all entries under other keys changes no answer.  This holds whatever the
    endpoint functions are. *)
Theorem greet_query_binding
    (q hs : list (string * string)) (n : string) (b : RawBody) (st : Store)
    (get : string -> M json) (post : NameRequest -> M json) :
  app_call (Combined.app_with get post) (GET "/greet" (q ++ [("name", n)]) hs b) st
  = app_call (Combined.app_with get post) (GET "/greet" [("name", n)] hs b) st
  /\ app_call (Combined.app_with get post) (GET "/greet" q hs b) st
     = app_call (Combined.app_with get post)
         (GET "/greet" (List.filter (fun kv => String.eqb (fst kv) "name") q) hs b) st.
Proof.
  rewrite !(app_call_ordinary (Combined.app_with get post)
              (mkCORS Combined.origins true ["*"])
              _ _ eq_refl (GET_not_preflight _ _ _ _)).
  rewrite !router_get_greet, query_get_app_last, query_get_single, query_get_filter.
  split.
  - destruct (get (default "World" (Some n)) st) as [v st'].
    destruct (serialize_response _ v); reflexivity.
  - destruct (get (default "World" (query_get "name" q)) st) as [v st'].
    destruct (serialize_response _ v); reflexivity.
Qed.

(** X14.  Dispatch on [/greet] is by method alone: [GET] is answered without
    looking at the request body, a body that holds a name included, and
    [POST] without looking at the query string.  This holds whatever the
    endpoint functions are. *)
Theorem greet_dispatch_ignores_other_input
    (q hs : list (string * string)) (b : RawBody) (st : Store)
    (get : string -> M json) (post : NameRequest -> M json) :
  app_call (Combined.app_with get post) (GET "/greet" q hs b) st
  = app_call (Combined.app_with get post) (GET "/greet" q hs NoBody) st
  /\ app_call (Combined.app_with get post) (POST "/greet" q hs b) st
     = app_call (Combined.app_with get post) (POST "/greet" [] hs b) st.
Proof.
  rewrite !(app_call_ordinary (Combined.app_with get post)
              (mkCORS Combined.origins true ["*"])
              _ _ eq_refl (GET_not_preflight _ _ _ _)).
  rewrite !(app_call_ordinary (Combined.app_with get post)
              (mkCORS Combined.origins true ["*"])
              _ _ eq_refl (POST_not_preflight _ _ _ _)).
  rewrite !router_get_greet, !router_post_greet.
  split.
  - destruct (get (default "World" (query_get "name" q)) st) as [v st'].
    destruct (serialize_response _ v); reflexivity.
  - destruct (read_body NameRequest_validate b) as [errs|x]; [reflexivity|].
    destruct (post x st) as [v st'].
    destruct (serialize_response _ v); reflexivity.
Qed.

(** ** The response model *)

(** X15.  Validation against [GreetingResponse] accepts exactly the objects
    with a string under [message], and what it hands on is the object with
    that one entry: other entries are dropped, and validating the result
    again changes nothing. *)
Theorem greeting_response_model_keeps_message (v v' : json) :
  (GreetingResponse_model v = Some v'
   <-> exists fields s,
         v = JObj fields /\ fields !! "message" = Some (JStr s)
         /\ v' = JObj {["message" := JStr s]})
  /\ (GreetingResponse_model v = None
      <-> forall fields s, v = JObj fields -> fields !! "message" <> Some (JStr s))
  /\ (GreetingResponse_model v = Some v' -> GreetingResponse_model v' = Some v').
Proof.
  assert (Hacc : forall fields s,
            fields !! "message" = Some (JStr s) ->
            GreetingResponse_model (JObj fields) = Some (JObj {["message" := JStr s]})).
  { intros fields s Hm. unfold GreetingResponse_model, GreetingResponse_validate.
    rewrite Hm. reflexivity. }
  assert (Hinv : forall w,
            GreetingResponse_model v = Some w ->
            exists fields s,
              v = JObj fields /\ fields !! "message" = Some (JStr s)
              /\ w = JObj {["message" := JStr s]}).
  { intros w. unfold GreetingResponse_model, GreetingResponse_validate.
    destruct v as [| | | | |fields]; try discriminate.
    destruct (fields !! "message") as [[| | |s| |]|] eqn:Hm; try discriminate.
    intros [= <-]. exists fields, s. repeat split. exact Hm. }
  split; [split|split; [split|]].
  - apply Hinv.
  - intros (fields & s & -> & Hm & ->). apply Hacc, Hm.
  - intros Hnone fields s -> Hm. rewrite (Hacc fields s Hm) in Hnone. discriminate.
  - intros Hno. destruct (GreetingResponse_model v) as [w|] eqn:Hv; [|reflexivity].
    destruct (Hinv w eq_refl) as (fields & s & Hf & Hm & _).
    destruct (Hno fields s Hf Hm).
  - intros Hv. destruct (Hinv v' Hv) as (fields & s & _ & _ & ->).
    apply GreetingResponse_model_message.
Qed.

Lemma greeting_response_model_keeps_message_witness :
  GreetingResponse_model
    (JObj (<["message" := JStr "Hello Bob"]> {["debug" := JBool true]}))
  = Some (JObj {["message" := JStr "Hello Bob"]})
  /\ GreetingResponse_model (JObj {["message" := JStr "Hello Bob"]})
     = Some (JObj {["message" := JStr "Hello Bob"]}).
Proof.
  assert (H : GreetingResponse_model
                (JObj (<["message" := JStr "Hello Bob"]> {["debug" := JBool true]}))
              = Some (JObj {["message" := JStr "Hello Bob"]})).
  { apply (proj1 (greeting_response_model_keeps_message _ _)).
    exists (<["message" := JStr "Hello Bob"]> {["debug" := JBool true]}), "Hello Bob".
    repeat split. }
  split; [exact H|].
  exact (proj2 (proj2 (greeting_response_model_keeps_message _ _)) H).
Defined.

(** ** The middleware and callers that name no origin *)

(** X16.  Installing the middleware changes nothing on [/greet] for a
    caller that names no origin: the third cell answers such a request,
    whatever its method, query string and body, exactly as the first cell
    does, without any cross-origin header. *)
Theorem cors_enabled_transparent_without_origin
    (m : string) (q hs : list (string * string)) (b : RawBody) (st : Store) :
  header_get "origin" hs = None ->
  app_call CorsEnabled.app (mkRequest m "/greet" q hs b) st
  = app_call Greeting1.app (mkRequest m "/greet" q hs b) st.
Proof.
  intros Ho. unfold app_call, bind, cors_call.
  cbn [user_middleware routes CorsEnabled.app Greeting1.app request_headers].
  rewrite Ho. cbn [router]. unfold matches.
  cbn [path method route_path methods String.eqb Ascii.eqb Bool.eqb].
  destruct (mem m ["GET"]); reflexivity.
Qed.

Lemma cors_enabled_transparent_without_origin_witness :
  header_get "origin" [("accept", "application/json")] = None
  /\ app_call CorsEnabled.app
       (mkRequest "GET" "/greet" [("name", "Ada")] [("accept", "application/json")] NoBody) ∅
     = app_call Greeting1.app
         (mkRequest "GET" "/greet" [("name", "Ada")] [("accept", "application/json")] NoBody) ∅.
Proof.
  split; [reflexivity|].
  apply (cors_enabled_transparent_without_origin "GET" [("name", "Ada")]
           [("accept", "application/json")] NoBody ∅ eq_refl).
Defined.
